(** * ml_runner.py: the regression pipeline [process_csv]

    A shallow embedding of [src/python/ml_runner.py].  The pipeline loads a
    CSV file into a data frame, drops incomplete rows, keeps the numeric
    columns, takes the last one as target, splits the rows 80/20 with a
    fixed seed, fits a linear model and reports three metrics together with
    the provenance counters.

    The calls into pandas, numpy and scikit-learn are modelled by what
    these libraries do at the arguments the source passes.  Three pieces are
    left abstract and are the variables of Section [Pipeline]: the CSV
    parser [read_csv], the pseudo-random generator behind
    [random_state=42], and the least-squares solver behind
    [LinearRegression.fit].

    Numbers are exact rationals ([Q]), where the source computes in
    binary floating point.  The properties below are about names, counts,
    positions, exceptions and the movement of rows; the value of a metric
    is stated only where every residual is zero, where the floating-point
    computation of the source is exact as well. *)

From Stdlib Require Import String List Arith ZArith QArith Qround Qabs Lia Bool.
From Stdlib Require Import Permutation.
Import ListNotations.

Local Open Scope string_scope.
Local Open Scope list_scope.
Local Open Scope nat_scope.

(** ** Exceptions and the stages of the pipeline *)

(** An exception is identified by where it is raised: by [process_csv]
    itself ([raise ValueError(...)], lines 28 and 42), inside a library
    call (whatever its Python class), or by the handler of line 80
    ([raise Exception(...)]). *)
Inductive exn : Type :=
| ValueError (msg : string)
| LibraryError (msg : string)
| Exception (msg : string).

(** [str(e)] *)
Definition str (e : exn) : string :=
  match e with
  | ValueError m => m
  | LibraryError m => m
  | Exception m => m
  end.

(** The two validation errors (lines 28 and 42). *)
Definition InsufficientColumns : exn :=
  ValueError "Dataset must have at least 2 numeric columns for regression analysis".

Definition InsufficientSamples : exn :=
  ValueError "Dataset must have at least 10 samples after cleaning".

Inductive stage : Type :=
| Loader | Cleaner | Selector | Splitter | RegressionModel
| MetricsCalculator | ResultAssembler.

(** The stages in the order the pipeline goes through them. *)
Definition pipeline_stages : list stage :=
  [Loader; Cleaner; Selector; Splitter; RegressionModel;
   MetricsCalculator; ResultAssembler].

(** ** A computation that may raise, and records the stages it enters *)

Module Run.

Definition M (A : Type) : Type := (list stage * (exn + A))%type.

Definition ret {A} (x : A) : M A := ([], inr x).

Definition raise {A} (e : exn) : M A := ([], inl e).

Definition bind {A B} (m : M A) (k : A -> M B) : M B :=
  match m with
  | (t, inl e) => (t, inl e)
  | (t, inr a) => let (t', r) := k a in (t ++ t', r)
  end.

(** entering a stage *)
Definition enter (s : stage) : M unit := ([s], inr tt).

(** a library call: its value, or the exception it raises *)
Definition call {A} (r : string + A) : M A :=
  match r with
  | inl msg => ([], inl (LibraryError msg))
  | inr a => ([], inr a)
  end.

(** [try: body except Exception as e: raise h(e)] *)
Definition try_except {A} (body : M A) (h : exn -> exn) : M A :=
  match body with
  | (t, inl e) => (t, inl (h e))
  | (t, inr a) => (t, inr a)
  end.

Definition trace {A} (m : M A) : list stage := fst m.
Definition outcome {A} (m : M A) : exn + A := snd m.

End Run.

Declare Scope run_scope.
Delimit Scope run_scope with run.
Notation "x <- m ;; k" := (Run.bind m (fun x => k))
  (at level 61, m at next level, right associativity) : run_scope.
Notation "m ;;; k" := (Run.bind m (fun _ => k))
  (at level 61, right associativity) : run_scope.

(** A library call returns its value or the message of the exception it
    raises; these compose without a trace. *)
Definition ebind {A B} (r : string + A) (k : A -> string + B)
  : string + B :=
  match r with
  | inl e => inl e
  | inr a => k a
  end.

Declare Scope lib_scope.
Delimit Scope lib_scope with lib.
Notation "x <-! r ;; k" := (ebind r (fun x => k))
  (at level 61, r at next level, right associativity) : lib_scope.

Fixpoint mapM {A B} (f : A -> string + B) (l : list A) : string + list B :=
  match l with
  | [] => inr []
  | a :: l' =>
      match f a with
      | inl e => inl e
      | inr b =>
          match mapM f l' with
          | inl e => inl e
          | inr bs => inr (b :: bs)
          end
      end
  end.

(** ** Data frames *)

(** The loader tags every column as numeric or not ([np.number]). *)
Inductive dtype : Type := Numeric | Other.

(** A cell: a number, a text, or a missing value (NaN / None). *)
Inductive cell : Type :=
| Num (q : Q)
| Str (s : string)
| NA.

(** A frame is kept row by row: the header with the column types, and one
    list of cells per row, in column order. *)
Record DataFrame : Type := mkFrame {
  columns : list (string * dtype);
  rows : list (list cell)
}.

Definition Series : Type := list cell.

(** [len(df)] *)
Definition len (df : DataFrame) : nat := length (rows df).

Definition column_names (df : DataFrame) : list string := map fst (columns df).

(** The invariants of a loaded table: every row has one cell per column,
    and no two columns share a name. *)
Definition rectangular (df : DataFrame) : Prop :=
  Forall (fun r => length r = length (columns df)) (rows df).

Definition unique_names (df : DataFrame) : Prop := NoDup (column_names df).

Definition notna (c : cell) : bool :=
  match c with
  | NA => false
  | _ => true
  end.

(** [df.dropna()]: the rows without a missing value in any column. *)
Definition dropna (df : DataFrame) : DataFrame :=
  mkFrame (columns df) (filter (forallb notna) (rows df)).

Definition is_number (d : dtype) : bool :=
  match d with
  | Numeric => true
  | Other => false
  end.

(** The cells of a row that stand under a numeric column, in the order of
    the columns: what a row of the cleaned frame is to the regression. *)
Definition numeric_cells (cols : list (string * dtype)) (r : list cell)
  : list cell :=
  map snd (filter (fun p => is_number (snd (fst p))) (combine cols r)).

(** [df.select_dtypes(include=[np.number]).columns.tolist()] *)
Definition select_dtypes_number (df : DataFrame) : list string :=
  map fst (filter (fun c => is_number (snd c)) (columns df)).

(** position of a column label; [KeyError] when the label is absent *)
Fixpoint get_loc (cols : list (string * dtype)) (label : string) : string + nat :=
  match cols with
  | [] => inl label
  | (nm, _) :: cols' =>
      if String.eqb nm label then inr 0
      else match get_loc cols' label with
           | inl e => inl e
           | inr i => inr (S i)
           end
  end.

Definition iloc_cell (r : list cell) (i : nat) : string + cell :=
  match nth_error r i with
  | Some c => inr c
  | None => inl "index out of bounds"
  end.

Definition iloc_column (cols : list (string * dtype)) (i : nat)
  : string + (string * dtype) :=
  match nth_error cols i with
  | Some c => inr c
  | None => inl "index out of bounds"
  end.

(** [df[labels]] with a list of labels: a frame with these columns, in the
    order of [labels]. *)
Definition getitem_columns (df : DataFrame) (labels : list string)
  : string + DataFrame :=
  (locs <-! mapM (get_loc (columns df)) labels ;;
   cols <-! mapM (iloc_column (columns df)) locs ;;
   rs <-! mapM (fun r => mapM (iloc_cell r) locs) (rows df) ;;
   inr (mkFrame cols rs))%lib.

(** [df[label]] with one label: the column as a series. *)
Definition getitem_column (df : DataFrame) (label : string) : string + Series :=
  (i <-! get_loc (columns df) label ;;
   mapM (fun r => iloc_cell r i) (rows df))%lib.

(** [l[-1]]; [IndexError] on the empty list *)
Definition getitem_last {A} (l : list A) : string + A :=
  match rev l with
  | [] => inl "list index out of range"
  | a :: _ => inr a
  end.

(** [l[:-1]] *)
Definition slice_to_last {A} (l : list A) : list A := removelast l.

(** conversion to a float array, as every estimator and metric does on
    entry ([check_array]) *)
Definition as_float (c : cell) : string + Q :=
  match c with
  | Num q => inr q
  | Str _ => inl "could not convert string to float"
  | NA => inl "Input contains NaN"
  end.

Definition check_array (s : Series) : string + list Q := mapM as_float s.

Definition check_matrix (X : DataFrame) : string + list (list Q) :=
  mapM (mapM as_float) (rows X).

(** ** The sizes of the split

    [train_test_split] is called with [test_size=0.2] and no [train_size].
    scikit-learn ([_validate_shuffle_split]) then takes
    [n_test = ceil(test_size * n_samples)] and
    [n_train = n_samples - n_test], and refuses an empty training set.
    The product is taken exactly here: the floating-point [0.2] exceeds
    one fifth by a relative [2^-54], which the rounding of the product
    absorbs at every multiple of 5, so both products have the same
    ceiling. *)

Definition Qnat (n : nat) : Q := inject_Z (Z.of_nat n).

Definition validate_shuffle_split (n_samples : nat) (test_size : Q)
  : string + (nat * nat) :=
  if (Qle_bool test_size 0 || Qle_bool 1 test_size)%bool then
    inl "test_size should be in the (0, 1) range"
  else
    let n_test := Z.to_nat (Qceiling (test_size * Qnat n_samples)) in
    let n_train := n_samples - n_test in
    if n_train =? 0 then
      inl "the resulting train set will be empty"
    else inr (n_train, n_test).

(** [_safe_indexing(a, indices)]: the rows at the given positions. *)
Definition safe_indexing {A} (a : list A) (indices : list nat) : string + list A :=
  mapM (fun i => match nth_error a i with
                 | Some x => inr x
                 | None => inl "positional indexers are out-of-bounds"
                 end) indices.

(** ** Metrics ([sklearn.metrics]) *)

(** A Python float that may be NaN. *)
Inductive pyfloat : Type :=
| Real (q : Q)
| NaN.

Module metrics.

Definition sum (l : list Q) : Q := fold_right Qplus 0%Q l.

(** [np.average] *)
Definition average (l : list Q) : Q := (sum l / Qnat (length l))%Q.

(** [_check_reg_targets]: both vectors have the same, non-zero number of
    samples and hold numbers. *)
Definition check_reg_targets (y_true : Series) (y_pred : list Q)
  : string + (list Q * list Q) :=
  if negb (length y_true =? length y_pred) then
    inl "Found input variables with inconsistent numbers of samples"
  else
    (yt <-! check_array y_true ;;
     if length yt =? 0 then
       inl "Found array with 0 sample(s) while a minimum of 1 is required"
     else inr (yt, y_pred))%lib.

Definition residuals (yt yp : list Q) : list Q :=
  map (fun p => (fst p - snd p)%Q) (combine yt yp).

Definition square (q : Q) : Q := (q * q)%Q.

Definition nonzero (q : Q) : bool := negb (Qeq_bool q 0).

Definition mean_absolute_error (y_true : Series) (y_pred : list Q)
  : string + pyfloat :=
  (p <-! check_reg_targets y_true y_pred ;;
   inr (Real (average (map Qabs (residuals (fst p) (snd p))))))%lib.

Definition mean_squared_error (y_true : Series) (y_pred : list Q)
  : string + pyfloat :=
  (p <-! check_reg_targets y_true y_pred ;;
   inr (Real (average (map square (residuals (fst p) (snd p))))))%lib.

(** [r2_score] with its defaults ([force_finite=True]): NaN below two
    samples; otherwise [1 - numerator / denominator] when both are
    non-zero, [0] when only the denominator vanishes, and [1] when the
    numerator does. *)
Definition r2_score (y_true : Series) (y_pred : list Q) : string + pyfloat :=
  (p <-! check_reg_targets y_true y_pred ;;
   let yt := fst p in
   let yp := snd p in
   if length yp <? 2 then inr NaN
   else
     let numerator := sum (map square (residuals yt yp)) in
     let denominator := sum (map (fun a => square (a - average yt)) yt) in
     if nonzero numerator then
       if nonzero denominator then inr (Real (1 - numerator / denominator)%Q)
       else inr (Real 0%Q)
     else inr (Real 1%Q))%lib.

End metrics.

(** ** The result record (lines 62-75) *)

Record dataset_info : Type := mkInfo {
  total_rows : nat;
  rows_after_cleaning : nat;
  feature_columns : nat;
  target_column : string;
  feature_names : list string;
  train_size : nat;
  test_size : nat
}.

Record results : Type := mkResults {
  r2_score : pyfloat;
  mae : pyfloat;
  mse : pyfloat;
  info : dataset_info
}.

(** The fitted model: one coefficient per feature, and the intercept. *)
Record LinearRegression : Type := mkModel {
  coef_ : list Q;
  intercept_ : Q
}.

Fixpoint dot (x w : list Q) : string + Q :=
  match x, w with
  | [], [] => inr 0%Q
  | a :: x', b :: w' =>
      match dot x' w' with
      | inl e => inl e
      | inr s => inr (a * b + s)%Q
      end
  | _, _ => inl "X has a different number of features than the model expects"
  end.

(** [model.predict(X)]: [X @ coef_ + intercept_] *)
Definition predict (model : LinearRegression) (X : DataFrame) : string + list Q :=
  (Xa <-! check_matrix X ;;
   mapM (fun x => s <-! dot x (coef_ model) ;; inr (s + intercept_ model)%Q) Xa)%lib.

(** The message of the handler at line 80. *)
Definition wrap (e : exn) : exn :=
  Exception ("ML processing error: " ++ str e).

(** ** The pipeline *)

Section Pipeline.

(** [pd.read_csv]: the loaded frame, or the exception of the parser. *)
Variable read_csv : string -> string + DataFrame.

(** [numpy.random.RandomState]: a generator made from a seed, and the
    permutation of [0 .. n-1] it draws. *)
Variable RandomState : Type.
Variable seeded : Z -> RandomState.
Variable permutation : RandomState -> nat -> list nat.

(** the least-squares solver: coefficients and intercept *)
Variable lstsq : list (list Q) -> list Q -> string + (list Q * Q).

(** [check_random_state]: an integer seeds a fresh generator, [None]
    is the generator shared by the whole process. *)
Definition check_random_state (random_state : option Z)
    (np_random : RandomState) : RandomState :=
  match random_state with
  | Some seed => seeded seed
  | None => np_random
  end.

(** [ShuffleSplit]: the first [n_test] permuted positions are the test
    rows, the next [n_train] the training rows. *)
Definition shuffle_split (np_random : RandomState) (n_samples : nat)
    (test_size : Q) (random_state : option Z) : string + (list nat * list nat) :=
  (sizes <-! validate_shuffle_split n_samples test_size ;;
   let n_train := fst sizes in
   let n_test := snd sizes in
   let rng := check_random_state random_state np_random in
   let perm := permutation rng n_samples in
   let ind_test := firstn n_test perm in
   let ind_train := firstn n_train (skipn n_test perm) in
   inr (ind_train, ind_test))%lib.

(** [train_test_split(X, y, test_size=..., random_state=...)] *)
Definition train_test_split (np_random : RandomState) (X : DataFrame)
    (y : Series) (test_size : Q) (random_state : option Z)
  : string + (DataFrame * DataFrame * Series * Series) :=
  if negb (len X =? length y) then
    inl "Found input variables with inconsistent numbers of samples"
  else
    (ind <-! shuffle_split np_random (len X) test_size random_state ;;
     X_train <-! safe_indexing (rows X) (fst ind) ;;
     X_test <-! safe_indexing (rows X) (snd ind) ;;
     y_train <-! safe_indexing y (fst ind) ;;
     y_test <-! safe_indexing y (snd ind) ;;
     inr (mkFrame (columns X) X_train, mkFrame (columns X) X_test,
          y_train, y_test))%lib.

(** [LinearRegression().fit(X, y)] *)
Definition fit (X : DataFrame) (y : Series) : string + LinearRegression :=
  (Xa <-! check_matrix X ;;
   ya <-! check_array y ;;
   sol <-! lstsq Xa ya ;;
   inr (mkModel (fst sol) (snd sol)))%lib.

(** The body of the [try] block, lines 15-77. *)
Definition process_csv_body (np_random : RandomState) (file_path : string)
  : Run.M results :=
  (Run.enter Loader ;;;
   df <- Run.call (read_csv file_path) ;;
   let original_rows := len df in
   Run.enter Cleaner ;;;
   let df_clean := dropna df in
   let numeric_columns := select_dtypes_number df_clean in
   if length numeric_columns <? 2 then Run.raise InsufficientColumns
   else
     df_numeric <- Run.call (getitem_columns df_clean numeric_columns) ;;
     Run.enter Selector ;;;
     let feature_columns := slice_to_last numeric_columns in
     target_column <- Run.call (getitem_last numeric_columns) ;;
     X <- Run.call (getitem_columns df_numeric feature_columns) ;;
     y <- Run.call (getitem_column df_numeric target_column) ;;
     if len X <? 10 then Run.raise InsufficientSamples
     else
       Run.enter Splitter ;;;
       s <- Run.call (train_test_split np_random X y (2 # 10) (Some 42%Z)) ;;
       let '(X_train, X_test, y_train, y_test) := s in
       Run.enter RegressionModel ;;;
       model <- Run.call (fit X_train y_train) ;;
       y_pred <- Run.call (predict model X_test) ;;
       Run.enter MetricsCalculator ;;;
       r2 <- Run.call (metrics.r2_score y_test y_pred) ;;
       mae <- Run.call (metrics.mean_absolute_error y_test y_pred) ;;
       mse <- Run.call (metrics.mean_squared_error y_test y_pred) ;;
       Run.enter ResultAssembler ;;;
       Run.ret (mkResults r2 mae mse
                  (mkInfo original_rows (len df_clean)
                     (length feature_columns) target_column
                     feature_columns (len X_train) (len X_test))))%run.

(** [process_csv]: the body, with every exception re-raised by the
    handler of lines 79-80. *)
Definition process_csv (np_random : RandomState) (file_path : string)
  : Run.M results :=
  Run.try_except (process_csv_body np_random file_path) wrap.

End Pipeline.

(** ** The entry point (lines 82-94)

    What [main] writes is kept as the values handed to [json.dumps], one
    per printed line, with the stream each goes to and the exit status of
    the process. *)

#[local] Unset Elimination Schemes.
Inductive json : Type :=
| JFloat (x : pyfloat)
| JInt (n : nat)
| JString (s : string)
| JArray (items : list json)
| JObject (members : list (string * json)).
#[local] Set Elimination Schemes.

(** the dictionary built at lines 62-75 *)
Definition results_to_json (r : results) : json :=
  JObject
    [("r2_score", JFloat (r2_score r));
     ("mae", JFloat (mae r));
     ("mse", JFloat (mse r));
     ("dataset_info",
      JObject
        [("total_rows", JInt (total_rows (info r)));
         ("rows_after_cleaning", JInt (rows_after_cleaning (info r)));
         ("feature_columns", JInt (feature_columns (info r)));
         ("target_column", JString (target_column (info r)));
         ("feature_names", JArray (map JString (feature_names (info r))));
         ("train_size", JInt (train_size (info r)));
         ("test_size", JInt (test_size (info r)))])].

(** [{"error": message}] *)
Definition error_record (message : string) : json :=
  JObject [("error", JString message)].

Definition usage : string := "Usage: python ml_runner.py <csv_file_path>".

Record output : Type := mkOutput {
  stdout : list json;
  stderr : list json;
  exit_status : nat
}.

Section EntryPoint.

Variable read_csv : string -> string + DataFrame.
Variable RandomState : Type.
Variable seeded : Z -> RandomState.
Variable permutation : RandomState -> nat -> list nat.
Variable lstsq : list (list Q) -> list Q -> string + (list Q * Q).

(** [main()], with [sys.argv] and the state of the process-wide
    generator. *)
Definition main (np_random : RandomState) (argv : list string) : output :=
  match argv with
  | [_; file_path] =>
      match Run.outcome (process_csv read_csv RandomState seeded permutation
                           lstsq np_random file_path) with
      | inr results => mkOutput [results_to_json results] [] 0
      | inl e => mkOutput [] [error_record (str e)] 1
      end
  | _ => mkOutput [error_record usage] [] 1
  end.

End EntryPoint.

(** ** The split as the specification words it

    Following the words of the specification: the first [round(n * 0.8)]
    permuted rows are the training rows.  [round] is Python's, which sends
    a half to the even neighbour. *)

Definition py_round (q : Q) : Z :=
  let f := Qfloor q in
  match (q - inject_Z f ?= 1 # 2)%Q with
  | Lt => f
  | Gt => (f + 1)%Z
  | Eq => if Z.even f then f else (f + 1)%Z
  end.

Definition spec_train_size (n : nat) : nat :=
  Z.to_nat (py_round (Qnat n * (8 # 10))).

(** ** A concrete environment

    A loader that knows a few files, a generator that draws the reversed
    identity, and a solver that answers the zero model.  The frames have
    two numeric columns around a text column. *)

Module Demo.

Definition row (i : nat) : list cell :=
  [Num (Qnat i); Str "x"; Num (Qnat (2 * i + 1))].

Definition frame (n : nat) : DataFrame :=
  mkFrame [("a", Numeric); ("tag", Other); ("b", Numeric)]
          (map row (seq 0 n)).

(** one numeric column only, three rows *)
Definition narrow : DataFrame :=
  mkFrame [("a", Numeric); ("tag", Other)]
          [[Num 1; Str "x"]; [Num 2; Str "y"]; [Num 3; Str "z"]].

(** [copy.csv] holds what [ten.csv] holds; [huge.csv] exhausts the memory
    while it is parsed (a [MemoryError], whose text is empty); any other
    path is not found. *)
Definition read_csv (path : string) : string + DataFrame :=
  if String.eqb path "ten.csv" then inr (frame 10)
  else if String.eqb path "copy.csv" then inr (frame 10)
  else if String.eqb path "eleven.csv" then inr (frame 11)
  else if String.eqb path "nine.csv" then inr (frame 9)
  else if String.eqb path "narrow.csv" then inr narrow
  else if String.eqb path "huge.csv" then inl EmptyString
  else inl "[Errno 2] No such file or directory".

(** The state of a generator is a number; an even state draws the
    reversed identity, an odd one the identity. *)
Definition RandomState : Type := nat.
Definition seeded (seed : Z) : RandomState := Z.to_nat seed.
Definition permutation (g : RandomState) (n : nat) : list nat :=
  if Nat.even g then rev (seq 0 n) else seq 0 n.

Definition lstsq (X : list (list Q)) (y : list Q) : string + (list Q * Q) :=
  inr (map (fun _ => 0%Q) (hd [] X), 0%Q).

(** a solver that exhausts the memory: a [MemoryError] again *)
Definition lstsq_fails (X : list (list Q)) (y : list Q)
  : string + (list Q * Q) := inl EmptyString.

(** the pipeline over the failing solver *)
Definition process_csv_no_fit : RandomState -> string -> Run.M results :=
  process_csv read_csv RandomState seeded permutation lstsq_fails.

Definition process_csv_body : RandomState -> string -> Run.M results :=
  process_csv_body read_csv RandomState seeded permutation lstsq.

Definition process_csv : RandomState -> string -> Run.M results :=
  process_csv read_csv RandomState seeded permutation lstsq.

(** ten rows of one feature, and their targets *)
Definition X : DataFrame :=
  mkFrame [("a", Numeric)] (map (fun i => [Num (Qnat i)]) (seq 0 10)).

Definition y : Series := map (fun i => Num (Qnat (2 * i + 1))) (seq 0 10).

Definition main : RandomState -> list string -> output :=
  main read_csv RandomState seeded permutation lstsq.

End Demo.

(** * Properties *)

(** ** Lists of library results *)

Lemma mapM_length {A B} (f : A -> string + B) (l : list A) (l' : list B) :
  mapM f l = inr l' -> length l' = length l.
Proof.
  revert l'; induction l as [|a l IH]; intros l' H; simpl in H.
  - now inversion H.
  - destruct (f a) as [m|b]; [discriminate|].
    destruct (mapM f l) as [m|bs]; [discriminate|].
    inversion H; subst; simpl; f_equal; now apply IH.
Qed.

Lemma mapM_total {A B} (f : A -> string + B) (l : list A) :
  (forall a, In a l -> exists b, f a = inr b) ->
  exists l', mapM f l = inr l'.
Proof.
  induction l as [|a l IH]; intros H; simpl.
  - now exists [].
  - destruct (H a (or_introl eq_refl)) as [b ->].
    destruct IH as [bs ->]; [intros; apply H; now right|].
    now exists (b :: bs).
Qed.

Lemma mapM_Forall2 {A B} (f : A -> string + B) (l : list A) (l' : list B) :
  mapM f l = inr l' -> Forall2 (fun a b => f a = inr b) l l'.
Proof.
  revert l'; induction l as [|a l IH]; intros l' H; simpl in H.
  - inversion H; constructor.
  - destruct (f a) as [m|b] eqn:E; [discriminate|].
    destruct (mapM f l) as [m|bs]; [discriminate|].
    inversion H; subst; constructor; auto.
Qed.

Lemma safe_indexing_length {A} (a : list A) (indices : list nat) (l : list A) :
  safe_indexing a indices = inr l -> length l = length indices.
Proof. apply mapM_length. Qed.

Lemma safe_indexing_total {A} (a : list A) (indices : list nat) :
  (forall i, In i indices -> i < length a) ->
  exists l, safe_indexing a indices = inr l.
Proof.
  intros H; apply mapM_total; intros i Hi.
  destruct (nth_error a i) as [x|] eqn:E; [now exists x|].
  apply nth_error_None in E; specialize (H i Hi); lia.
Qed.

Lemma safe_indexing_Forall2 {A} (a : list A) (indices : list nat) (l : list A) :
  safe_indexing a indices = inr l ->
  Forall2 (fun i x => nth_error a i = Some x) indices l.
Proof.
  intros H; apply mapM_Forall2 in H.
  induction H as [|i x indices l Hi _ IH]; constructor; [|exact IH].
  destruct (nth_error a i); [now injection Hi as ->|discriminate].
Qed.

Lemma len_mkFrame cols rs : len (mkFrame cols rs) = length rs.
Proof. reflexivity. Qed.

Lemma NoDup_app_disjoint {A} (l1 l2 : list A) :
  NoDup (l1 ++ l2) -> forall a, In a l1 -> ~ In a l2.
Proof.
  induction l1 as [|b l1 IH]; intros ND a H1 H2; [contradiction|].
  simpl in ND; apply NoDup_cons_iff in ND as [Hnb ND].
  destruct H1 as [->|H1].
  - apply Hnb, in_or_app; now right.
  - exact (IH ND a H1 H2).
Qed.

(** ** The sizes of the split *)

Lemma Qceiling_fifth (n : nat) :
  Z.to_nat (Qceiling ((2 # 10) * Qnat n)) = (n + 4) / 5.
Proof.
  unfold Qceiling, Qfloor, Qnat, Qopp, Qmult, inject_Z.
  cbn [Qnum Qden].
  replace (Z.pos (10 * 1)) with 10%Z by reflexivity.
  apply Nat2Z.inj; rewrite Nat2Z.inj_div, Nat2Z.inj_add.
  change (Z.of_nat 4) with 4%Z; change (Z.of_nat 5) with 5%Z.
  set (z := Z.of_nat n); assert (0 <= z)%Z by lia.
  rewrite Z2Nat.id; Z.to_euclidean_division_equations; lia.
Qed.

Lemma Qfloor_four_fifths (n : nat) :
  Z.to_nat (Qfloor ((8 # 10) * Qnat n)) = 4 * n / 5.
Proof.
  unfold Qfloor, Qnat, Qmult, inject_Z.
  cbn [Qnum Qden].
  replace (Z.pos (10 * 1)) with 10%Z by reflexivity.
  apply Nat2Z.inj; rewrite Nat2Z.inj_div, Nat2Z.inj_mul.
  change (Z.of_nat 4) with 4%Z; change (Z.of_nat 5) with 5%Z.
  set (z := Z.of_nat n); assert (0 <= z)%Z by lia.
  rewrite Z2Nat.id; Z.to_euclidean_division_equations; lia.
Qed.

Lemma fifth_complement (n : nat) : n - (n + 4) / 5 = 4 * n / 5.
Proof.
  assert (H : (n + 4) / 5 <= n).
  { destruct n; [reflexivity|].
    apply Nat.Div0.div_le_upper_bound; lia. }
  apply Nat2Z.inj.
  rewrite Nat2Z.inj_sub, !Nat2Z.inj_div, Nat2Z.inj_add, Nat2Z.inj_mul by exact H.
  change (Z.of_nat 4) with 4%Z; change (Z.of_nat 5) with 5%Z.
  set (z := Z.of_nat n); assert (0 <= z)%Z by lia.
  Z.to_euclidean_division_equations; lia.
Qed.

(** Where the rounding of the specification meets the code: exactly at
    the row counts that are 0, 3 or 4 above a multiple of 5. *)
Lemma py_round_tenths (z : Z) :
  (0 <= z)%Z ->
  py_round (z # 10) = ((z + 5) / 10)%Z \/ (z mod 10 = 5)%Z.
Proof.
  intros Hz; unfold py_round, Qfloor; cbn [Qnum Qden].
  destruct (Z.eq_dec (z mod 10) 5) as [E|E]; [now right|left].
  unfold Qcompare, Qminus, Qplus, Qopp, inject_Z; cbn [Qnum Qden].
  change (Z.pos (10 * 1)) with 10%Z; change (Z.pos 2) with 2%Z.
  change (Z.pos 10) with 10%Z.
  destruct (Z.compare_spec ((z * 1 + - (z / 10) * 10) * 2) (1 * 10))
    as [H|H|H]; [exfalso| |]; Z.to_euclidean_division_equations; lia.
Qed.

Lemma spec_train_size_eq (n : nat) : spec_train_size n = (8 * n + 5) / 10.
Proof.
  unfold spec_train_size, Qnat, Qmult, inject_Z; cbn [Qnum Qden].
  change (1 * 10)%positive with 10%positive.
  destruct (py_round_tenths (Z.of_nat n * 8)) as [H|H]; [lia| |].
  - rewrite H; apply Nat2Z.inj.
    rewrite Nat2Z.inj_div, Nat2Z.inj_add, Nat2Z.inj_mul.
    change (Z.of_nat 8) with 8%Z; change (Z.of_nat 5) with 5%Z.
    change (Z.of_nat 10) with 10%Z.
    rewrite Z2Nat.id; Z.to_euclidean_division_equations; lia.
  - exfalso; Z.to_euclidean_division_equations; lia.
Qed.

Lemma train_size_rounded_iff (n : nat) :
  n - (n + 4) / 5 = spec_train_size n
  <-> n mod 5 = 0 \/ n mod 5 = 3 \/ n mod 5 = 4.
Proof.
  rewrite spec_train_size_eq, fifth_complement.
  pose proof (Nat.div_mod_eq (4 * n) 5) as H1.
  pose proof (Nat.mod_upper_bound (4 * n) 5 ltac:(lia)) as H2.
  pose proof (Nat.div_mod_eq (8 * n + 5) 10) as H3.
  pose proof (Nat.mod_upper_bound (8 * n + 5) 10 ltac:(lia)) as H4.
  pose proof (Nat.div_mod_eq n 5) as H5.
  pose proof (Nat.mod_upper_bound n 5 ltac:(lia)) as H6.
  revert H1 H2 H3 H4 H5 H6.
  generalize (4 * n / 5) ((4 * n) mod 5) ((8 * n + 5) / 10)
    ((8 * n + 5) mod 10) (n / 5) (n mod 5).
  intros; lia.
Qed.

Lemma validate_shuffle_split_fifth (n : nat) :
  2 <= n ->
  validate_shuffle_split n (2 # 10) = inr (n - (n + 4) / 5, (n + 4) / 5).
Proof.
  intros Hn; unfold validate_shuffle_split.
  replace (Qle_bool (2 # 10) 0 || Qle_bool 1 (2 # 10))%bool with false
    by reflexivity.
  rewrite Qceiling_fifth.
  destruct (n - (n + 4) / 5 =? 0) eqn:E; [|reflexivity].
  apply Nat.eqb_eq in E.
  assert ((n + 4) / 5 < n) by (apply Nat.Div0.div_lt_upper_bound; lia).
  lia.
Qed.

Lemma validate_shuffle_split_sum (n : nat) (q : Q) (n_train n_test : nat) :
  validate_shuffle_split n q = inr (n_train, n_test) ->
  n_train + n_test = n /\ 0 < n_train.
Proof.
  unfold validate_shuffle_split.
  destruct (Qle_bool q 0 || Qle_bool 1 q)%bool; [discriminate|].
  destruct (_ =? 0) eqn:E; [discriminate|].
  intros H; inversion H; subst; apply Nat.eqb_neq in E; lia.
Qed.

(** ** The splitter *)

Section SplitterFacts.

Variable RandomState : Type.
Variable seeded : Z -> RandomState.
Variable permutation : RandomState -> nat -> list nat.

(** What numpy promises of [rng.permutation(n)]. *)
Hypothesis permutation_spec :
  forall g n, Permutation (permutation g n) (seq 0 n).

Local Abbreviation shuffle :=
  (shuffle_split RandomState seeded permutation).
Local Abbreviation split :=
  (train_test_split RandomState seeded permutation).

Lemma permutation_length g n : length (permutation g n) = n.
Proof.
  rewrite (Permutation_length (permutation_spec g n)); apply length_seq.
Qed.

Lemma shuffle_split_inv g n q rs tr te :
  shuffle g n q rs = inr (tr, te) ->
  exists n_train n_test,
    validate_shuffle_split n q = inr (n_train, n_test) /\
    te ++ tr = permutation (check_random_state RandomState seeded rs g) n /\
    length tr = n_train /\ length te = n_test.
Proof.
  unfold shuffle_split, ebind.
  destruct (validate_shuffle_split n q) as [m|[n_train n_test]] eqn:E;
    [discriminate|].
  cbn [fst snd]; intros H; inversion H; subst; clear H.
  destruct (validate_shuffle_split_sum _ _ _ _ E) as [Hsum Hpos].
  set (p := permutation _ n).
  assert (Hp : length p = n) by apply permutation_length.
  assert (Hrest : firstn n_train (skipn n_test p) = skipn n_test p).
  { apply firstn_all2; rewrite length_skipn; lia. }
  rewrite Hrest.
  exists n_train, n_test; repeat split.
  - apply firstn_skipn.
  - rewrite length_skipn; lia.
  - rewrite length_firstn; lia.
Qed.

Lemma shuffle_split_perm g n q rs tr te :
  shuffle g n q rs = inr (tr, te) ->
  Permutation (te ++ tr) (seq 0 n).
Proof.
  intros H; destruct (shuffle_split_inv _ _ _ _ _ _ H)
    as (n_train & n_test & _ & -> & _).
  apply permutation_spec.
Qed.

Lemma shuffle_split_in_range g n q rs tr te :
  shuffle g n q rs = inr (tr, te) ->
  forall i, In i tr \/ In i te -> i < n.
Proof.
  intros H i Hi.
  assert (Hin : In i (te ++ tr)) by (apply in_or_app; tauto).
  apply (Permutation_in _ (shuffle_split_perm _ _ _ _ _ _ H)) in Hin.
  apply in_seq in Hin; lia.
Qed.

Lemma shuffle_split_fifth g n rs :
  2 <= n ->
  exists tr te,
    shuffle g n (2 # 10) rs = inr (tr, te) /\
    length te = (n + 4) / 5 /\ length tr = n - (n + 4) / 5.
Proof.
  intros Hn.
  destruct (shuffle g n (2 # 10) rs) as [m|[tr te]] eqn:E.
  - exfalso; revert E; unfold shuffle_split, ebind.
    now rewrite validate_shuffle_split_fifth.
  - exists tr, te; split; [reflexivity|].
    destruct (shuffle_split_inv _ _ _ _ _ _ E)
      as (n_train & n_test & Hv & _ & Htr & Hte).
    rewrite validate_shuffle_split_fifth in Hv by assumption.
    injection Hv as <- <-; now split.
Qed.

(** From 2 rows on the shuffle returns a TRAIN and a TEST index list that
    share no index, repeat no index, and together hold exactly the
    positions [0 .. n-1]. *)
Lemma shuffle_split_partition g n :
  2 <= n ->
  exists ind_train ind_test,
    shuffle_split RandomState seeded permutation g n (2 # 10) (Some 42%Z)
      = inr (ind_train, ind_test) /\
    (forall i, In i ind_train -> ~ In i ind_test) /\
    (forall i, In i ind_train \/ In i ind_test <-> i < n) /\
    NoDup ind_train /\ NoDup ind_test.
Proof.
  intros Hn.
  destruct (shuffle_split_fifth g n (Some 42%Z) Hn) as (tr & te & E & _).
  exists tr, te; split; [exact E|].
  pose proof (shuffle_split_perm _ _ _ _ _ _ E) as HP.
  assert (ND : NoDup (te ++ tr)).
  { apply (Permutation_NoDup (Permutation_sym HP)), seq_NoDup. }
  repeat split.
  - intros i Htr Hte; exact (NoDup_app_disjoint _ _ ND i Hte Htr).
  - apply (shuffle_split_in_range _ _ _ _ _ _ E).
  - intros Hi.
    assert (Hin : In i (seq 0 n)) by (apply in_seq; lia).
    apply (Permutation_in _ (Permutation_sym HP)) in Hin.
    apply in_app_or in Hin; tauto.
  - now apply NoDup_app_remove_l in ND.
  - now apply NoDup_app_remove_r in ND.
Qed.

Lemma train_test_split_fifth g X y :
  len X = length y ->
  2 <= len X ->
  exists X_train X_test y_train y_test,
    split g X y (2 # 10) (Some 42%Z)
      = inr (X_train, X_test, y_train, y_test) /\
    len X_test = (len X + 4) / 5 /\
    len X_train = len X - (len X + 4) / 5 /\
    length y_train = len X_train /\
    length y_test = len X_test.
Proof.
  intros Hlen Hn.
  unfold train_test_split.
  rewrite Hlen, Nat.eqb_refl; cbn [negb]; rewrite <- Hlen.
  destruct (shuffle_split_fifth g (len X) (Some 42%Z))
    as (tr & te & E & Hte & Htr); [assumption|].
  rewrite E; cbn [ebind fst snd].
  pose proof (shuffle_split_in_range _ _ _ _ _ _ E) as Hrange.
  destruct (safe_indexing_total (rows X) tr) as [Xtr EXtr];
    [intros; apply Hrange; tauto|].
  destruct (safe_indexing_total (rows X) te) as [Xte EXte];
    [intros; apply Hrange; tauto|].
  destruct (safe_indexing_total y tr) as [ytr Eytr];
    [intros; rewrite <- Hlen; apply Hrange; tauto|].
  destruct (safe_indexing_total y te) as [yte Eyte];
    [intros; rewrite <- Hlen; apply Hrange; tauto|].
  rewrite EXtr, EXte, Eytr, Eyte.
  apply safe_indexing_length in EXtr, EXte, Eytr, Eyte.
  eexists _, _, _, _; split; [reflexivity|].
  rewrite !len_mkFrame, EXtr, EXte, Eytr, Eyte, Htr, Hte.
  repeat split; reflexivity.
Qed.

Lemma train_test_split_inv g X y q rs X_train X_test y_train y_test :
  split g X y q rs = inr (X_train, X_test, y_train, y_test) ->
  len X = length y /\
  exists ind_train ind_test,
    shuffle g (len X) q rs = inr (ind_train, ind_test) /\
    len X_train = length ind_train /\ len X_test = length ind_test /\
    length y_train = length ind_train /\ length y_test = length ind_test.
Proof.
  unfold train_test_split.
  destruct (len X =? length y) eqn:Elen; cbn [negb]; [|discriminate].
  apply Nat.eqb_eq in Elen.
  destruct (shuffle g (len X) q rs) as [m|[tr te]] eqn:E; [discriminate|].
  cbn [ebind fst snd].
  destruct (safe_indexing (rows X) tr) as [m|Xtr] eqn:E1; [discriminate|].
  destruct (safe_indexing (rows X) te) as [m|Xte] eqn:E2; [discriminate|].
  destruct (safe_indexing y tr) as [m|ytr] eqn:E3; [discriminate|].
  destruct (safe_indexing y te) as [m|yte] eqn:E4; [discriminate|].
  intros H; injection H as <- <- <- <-.
  apply safe_indexing_length in E1, E2, E3, E4.
  split; [exact Elen|].
  exists tr, te; rewrite !len_mkFrame; auto.
Qed.

Lemma train_test_split_len g X y q rs X_train X_test y_train y_test :
  split g X y q rs = inr (X_train, X_test, y_train, y_test) ->
  len X_train + len X_test = len X.
Proof.
  intros H; apply train_test_split_inv in H
    as (_ & tr & te & E & -> & -> & _).
  apply shuffle_split_inv in E as (n_train & n_test & Hv & _ & -> & ->).
  now apply validate_shuffle_split_sum in Hv.
Qed.

(** C1, amended. For every feature frame and target series of the same
    [n >= 10] rows, the split returns; TEST has [ceil(0.2 * n)] rows and
    TRAIN the remaining [n - ceil(0.2 * n)], which is
    [floor(0.8 * n)]. *)
Theorem split_sizes g X y :
  len X = length y ->
  10 <= len X ->
  exists X_train X_test y_train y_test,
    train_test_split RandomState seeded permutation g X y (2 # 10)
      (Some 42%Z) = inr (X_train, X_test, y_train, y_test) /\
    len X_test = Z.to_nat (Qceiling ((2 # 10) * Qnat (len X))) /\
    len X_train = len X - len X_test /\
    len X_train = Z.to_nat (Qfloor ((8 # 10) * Qnat (len X))) /\
    length y_train = len X_train /\
    length y_test = len X_test.
Proof.
  intros Hlen Hn.
  destruct (train_test_split_fifth g X y Hlen)
    as (X_train & X_test & y_train & y_test & E & Hte & Htr & Hy); [lia|].
  exists X_train, X_test, y_train, y_test.
  split; [exact E|].
  rewrite Qceiling_fifth, Qfloor_four_fifths.
  split; [exact Hte|].
  split; [now rewrite Hte|].
  split; [|exact Hy].
  rewrite Htr; apply fifth_complement.
Qed.

(** The parts the split returns are the rows of [X] and the entries of
    [y] at the positions of the index lists, in their order. *)
Lemma train_test_split_indices g X y q rs X_train X_test y_train y_test :
  split g X y q rs = inr (X_train, X_test, y_train, y_test) ->
  exists ind_train ind_test,
    shuffle g (len X) q rs = inr (ind_train, ind_test) /\
    Forall2 (fun i x => nth_error (rows X) i = Some x)
            ind_train (rows X_train) /\
    Forall2 (fun i x => nth_error (rows X) i = Some x)
            ind_test (rows X_test) /\
    Forall2 (fun i c => nth_error y i = Some c) ind_train y_train /\
    Forall2 (fun i c => nth_error y i = Some c) ind_test y_test /\
    columns X_train = columns X /\ columns X_test = columns X.
Proof.
  unfold train_test_split.
  destruct (len X =? length y); cbn [negb]; [|discriminate].
  destruct (shuffle g (len X) q rs) as [m|[tr te]] eqn:E; [discriminate|].
  cbn [ebind fst snd].
  destruct (safe_indexing (rows X) tr) as [m|Xtr] eqn:E1; [discriminate|].
  destruct (safe_indexing (rows X) te) as [m|Xte] eqn:E2; [discriminate|].
  destruct (safe_indexing y tr) as [m|ytr] eqn:E3; [discriminate|].
  destruct (safe_indexing y te) as [m|yte] eqn:E4; [discriminate|].
  intros H; injection H as <- <- <- <-; exists tr, te; cbn [rows columns].
  apply safe_indexing_Forall2 in E1, E2, E3, E4.
  repeat split; assumption.
Qed.

End SplitterFacts.

(** ** Frames *)

Lemma dropna_len (df : DataFrame) : len (dropna df) <= len df.
Proof. apply filter_length_le. Qed.

Lemma dropna_rectangular (df : DataFrame) :
  rectangular df -> rectangular (dropna df).
Proof.
  unfold rectangular, dropna; cbn [rows columns]; intros H.
  apply Forall_forall; intros r Hr; apply filter_In in Hr as [Hr _].
  revert r Hr; now apply Forall_forall.
Qed.

Lemma select_dtypes_number_dropna (df : DataFrame) :
  select_dtypes_number (dropna df) = select_dtypes_number df.
Proof. reflexivity. Qed.

Lemma select_dtypes_number_incl (df : DataFrame) :
  incl (select_dtypes_number df) (column_names df).
Proof.
  intros nm H; unfold select_dtypes_number, column_names in *.
  apply in_map_iff in H as (c & <- & Hc).
  apply filter_In in Hc as [Hc _]; now apply in_map.
Qed.

Lemma select_dtypes_number_NoDup (df : DataFrame) :
  unique_names df -> NoDup (select_dtypes_number df).
Proof.
  unfold unique_names, select_dtypes_number, column_names.
  induction (columns df) as [|[nm d] cols IH]; intros ND; simpl;
    [constructor|].
  simpl in ND; apply NoDup_cons_iff in ND as [Hn ND].
  destruct (is_number d); simpl; [|now apply IH].
  constructor; [|now apply IH].
  intros Hin; apply Hn.
  apply in_map_iff in Hin as (c & <- & Hc).
  apply filter_In in Hc as [Hc _]; now apply in_map.
Qed.

Lemma get_loc_nth cols label i :
  get_loc cols label = inr i ->
  exists d, nth_error cols i = Some (label, d).
Proof.
  revert i; induction cols as [|[nm d] cols IH]; intros i H; simpl in H;
    [discriminate|].
  destruct (String.eqb nm label) eqn:E.
  - apply String.eqb_eq in E; subst; injection H as <-; now exists d.
  - destruct (get_loc cols label) as [m|j]; [discriminate|].
    injection H as <-; simpl; now apply IH.
Qed.

Lemma get_loc_total cols label :
  In label (map fst cols) -> exists i, get_loc cols label = inr i.
Proof.
  induction cols as [|[nm d] cols IH]; intros H; simpl in *; [contradiction|].
  destruct (String.eqb nm label) eqn:E; [now exists 0|].
  destruct H as [->|H]; [now rewrite String.eqb_refl in E|].
  destruct (IH H) as [i ->]; now exists (S i).
Qed.

Lemma getitem_columns_inv df labels d :
  getitem_columns df labels = inr d ->
  exists locs,
    mapM (get_loc (columns df)) labels = inr locs /\
    mapM (iloc_column (columns df)) locs = inr (columns d) /\
    mapM (fun r => mapM (iloc_cell r) locs) (rows df) = inr (rows d).
Proof.
  unfold getitem_columns, ebind.
  destruct (mapM (get_loc _) labels) as [m|locs] eqn:El; [discriminate|].
  destruct (mapM (iloc_column _) locs) as [m|cols] eqn:Ec; [discriminate|].
  destruct (mapM _ (rows df)) as [m|rs] eqn:Er; [discriminate|].
  intros H; injection H as <-; exists locs; cbn [columns rows]; auto.
Qed.

Lemma getitem_columns_len df labels d :
  getitem_columns df labels = inr d -> len d = len df.
Proof.
  intros H; apply getitem_columns_inv in H as (locs & _ & _ & H).
  now apply mapM_length in H.
Qed.

Lemma getitem_columns_names df labels d :
  getitem_columns df labels = inr d -> column_names d = labels.
Proof.
  intros H; apply getitem_columns_inv in H as (locs & Hl & Hc & _).
  unfold column_names; revert Hc; generalize (columns d) as cs.
  apply mapM_Forall2 in Hl.
  induction Hl as [|label i labels locs Hi _ IH]; intros cs Hc; simpl in Hc.
  - now injection Hc as <-.
  - destruct (get_loc_nth _ _ _ Hi) as [dt Hnth].
    unfold iloc_column at 1 in Hc; rewrite Hnth in Hc.
    destruct (mapM _ locs) as [m|cs']; [discriminate|].
    injection Hc as <-; simpl; f_equal; now apply IH.
Qed.

Lemma getitem_columns_rectangular df labels d :
  getitem_columns df labels = inr d -> rectangular d.
Proof.
  intros H; apply getitem_columns_inv in H as (locs & _ & Hc & Hr).
  apply mapM_length in Hc; apply mapM_Forall2 in Hr.
  unfold rectangular; rewrite Hc.
  induction Hr as [|r r' rs rs' Hr _ IH]; constructor; [|exact IH].
  now apply mapM_length in Hr.
Qed.

Lemma iloc_cell_total (r : list cell) i :
  i < length r -> exists c, iloc_cell r i = inr c.
Proof.
  intros H; unfold iloc_cell.
  destruct (nth_error r i) as [c|] eqn:E; [now exists c|].
  apply nth_error_None in E; lia.
Qed.

Lemma getitem_columns_total df labels :
  rectangular df -> incl labels (column_names df) ->
  exists d, getitem_columns df labels = inr d.
Proof.
  intros Hrect Hincl; unfold getitem_columns, ebind.
  destruct (mapM_total (get_loc (columns df)) labels) as [locs El].
  { intros label Hl; apply get_loc_total, Hincl, Hl. }
  rewrite El.
  assert (Hlt : forall i, In i locs -> i < length (columns df)).
  { apply mapM_Forall2 in El; clear Hincl.
    induction El as [|label j labels locs Hj _ IH]; intros i Hi;
      [contradiction|].
    destruct Hi as [<-|Hi]; [|now apply IH].
    destruct (get_loc_nth _ _ _ Hj) as [dt Hnth].
    apply nth_error_Some; congruence. }
  destruct (mapM_total (iloc_column (columns df)) locs) as [cols Ec].
  { intros i Hi; unfold iloc_column.
    destruct (nth_error (columns df) i) as [c|] eqn:E; [now exists c|].
    apply nth_error_None in E; specialize (Hlt i Hi); lia. }
  rewrite Ec.
  destruct (mapM_total (fun r => mapM (iloc_cell r) locs) (rows df))
    as [rs Er].
  { intros r Hr; apply mapM_total; intros i Hi.
    apply iloc_cell_total.
    unfold rectangular in Hrect; rewrite Forall_forall in Hrect.
    rewrite (Hrect r Hr); now apply Hlt. }
  rewrite Er; now eexists.
Qed.

Lemma Forall2_compose {A B C} (P : A -> B -> Prop) (Q : B -> C -> Prop)
    (l1 : list A) (l2 : list B) (l3 : list C) :
  Forall2 P l1 l2 -> Forall2 Q l2 l3 ->
  Forall2 (fun a c => exists b, P a b /\ Q b c) l1 l3.
Proof.
  intros H; revert l3; induction H; intros l3 H'; inversion H'; subst;
    constructor; eauto.
Qed.

(** Each cell of [df[labels]] is the cell of the same row of [df] at the
    position of its label. *)
Lemma getitem_columns_cells df labels d :
  getitem_columns df labels = inr d ->
  Forall2
    (fun r r' =>
       Forall2 (fun label c =>
                  exists i, get_loc (columns df) label = inr i /\
                            nth_error r i = Some c)
               labels r')
    (rows df) (rows d).
Proof.
  intros H; apply getitem_columns_inv in H as (locs & Hl & _ & Hr).
  apply mapM_Forall2 in Hl, Hr.
  induction Hr as [|r r' rs rs' Hrr' _ IH]; constructor; [|exact IH].
  apply mapM_Forall2 in Hrr'.
  pose proof (Forall2_compose _ _ _ _ _ Hl Hrr') as Hc.
  clear - Hc; induction Hc as [|label c labels r' (i & Hi & Hc') _ IH];
    constructor; [|exact IH].
  exists i; split; [exact Hi|].
  unfold iloc_cell in Hc'.
  destruct (nth_error r i); [now injection Hc' as ->|discriminate].
Qed.

Lemma getitem_column_len df label y :
  getitem_column df label = inr y -> length y = len df.
Proof.
  unfold getitem_column, ebind.
  destruct (get_loc _ label) as [m|i]; [discriminate|].
  apply mapM_length.
Qed.

Lemma getitem_column_total df label :
  rectangular df -> In label (column_names df) ->
  exists y, getitem_column df label = inr y.
Proof.
  intros Hrect Hin; unfold getitem_column, ebind.
  destruct (get_loc_total _ _ Hin) as [i Ei]; rewrite Ei.
  apply mapM_total; intros r Hr; apply iloc_cell_total.
  unfold rectangular in Hrect; rewrite Forall_forall in Hrect.
  rewrite (Hrect r Hr).
  destruct (get_loc_nth _ _ _ Ei) as [dt Hnth].
  apply nth_error_Some; congruence.
Qed.

(** ** Lines 34-35: [numeric_columns[:-1]] and [numeric_columns[-1]] *)

Lemma getitem_last_app {A} (l : list A) (a : A) :
  getitem_last (l ++ [a]) = inr a.
Proof. unfold getitem_last; now rewrite rev_unit. Qed.

Lemma getitem_last_inv {A} (l : list A) (a : A) :
  getitem_last l = inr a -> l = slice_to_last l ++ [a].
Proof.
  unfold getitem_last, slice_to_last.
  destruct l as [|x l] using rev_ind; [discriminate|].
  rewrite rev_unit; intros H; injection H as <-.
  now rewrite removelast_last.
Qed.

Lemma getitem_last_total {A} (l : list A) :
  1 <= length l -> exists a, getitem_last l = inr a.
Proof.
  destruct l as [|x l] using rev_ind; simpl; [lia|].
  intros _; exists x; apply getitem_last_app.
Qed.

Lemma slice_to_last_length {A} (l : list A) :
  length (slice_to_last l) = length l - 1.
Proof.
  unfold slice_to_last.
  destruct l as [|x l] using rev_ind; [reflexivity|].
  rewrite removelast_last, length_app; simpl; lia.
Qed.

(** ** What a selection by labels holds *)

Lemma Forall2_impl_In {A B} (P Q : A -> B -> Prop) (l : list A) (l' : list B) :
  (forall a b, In a l -> P a b -> Q a b) ->
  Forall2 P l l' -> Forall2 Q l l'.
Proof.
  intros H HF; induction HF as [|a b l l' Hab _ IH]; constructor.
  - apply H; [now left|exact Hab].
  - apply IH; intros a' b' Ha'; apply H; now right.
Qed.

Lemma In_firstn {A} (k : nat) (l : list A) (a : A) :
  In a (firstn k l) -> In a l.
Proof.
  intros H; rewrite <- (firstn_skipn k l); apply in_or_app; now left.
Qed.

Lemma Forall2_eq_map {A B} (f : A -> B) (l : list A) (l' : list B) :
  Forall2 (fun a b => b = f a) l l' -> l' = map f l.
Proof. induction 1; simpl; congruence. Qed.

(** Under another first column, a label of the later columns is found one
    position further, where the longer row holds the same cell. *)
Lemma get_loc_shift nm d cols (c0 : cell) r label c :
  label <> nm ->
  (exists i, get_loc ((nm, d) :: cols) label = inr i /\
             nth_error (c0 :: r) i = Some c) ->
  exists j, get_loc cols label = inr j /\ nth_error r j = Some c.
Proof.
  intros Hne (i & Hi & Hc); simpl in Hi.
  destruct (String.eqb nm label) eqn:E;
    [apply String.eqb_eq in E; congruence|].
  destruct (get_loc cols label) as [m|j]; [discriminate|].
  injection Hi as <-; now exists j.
Qed.

Lemma get_loc_head nm d cols (c0 : cell) r c :
  (exists i, get_loc ((nm, d) :: cols) nm = inr i /\
             nth_error (c0 :: r) i = Some c) ->
  c = c0.
Proof.
  intros (i & Hi & Hc); simpl in Hi; rewrite String.eqb_refl in Hi.
  injection Hi as <-; simpl in Hc; congruence.
Qed.

(** Selecting the numeric labels of a frame with distinct names picks, in
    every row, the cells under the numeric columns. *)
Lemma select_numeric_cells cols (r r' : list cell) :
  NoDup (map fst cols) ->
  length r = length cols ->
  Forall2 (fun label c =>
             exists i, get_loc cols label = inr i /\ nth_error r i = Some c)
          (map fst (filter (fun c => is_number (snd c)) cols)) r' ->
  r' = numeric_cells cols r.
Proof.
  revert r r'; induction cols as [|[nm d] cols IH]; intros r r' ND Hlen HF.
  - inversion HF; reflexivity.
  - destruct r as [|c0 r]; [discriminate|].
    simpl in ND; apply NoDup_cons_iff in ND as [Hn ND].
    injection Hlen as Hlen.
    assert (Hshift :
      forall labels x,
        incl labels (map fst cols) ->
        Forall2 (fun label c =>
                   exists i, get_loc ((nm, d) :: cols) label = inr i /\
                             nth_error (c0 :: r) i = Some c) labels x ->
        Forall2 (fun label c =>
                   exists i, get_loc cols label = inr i /\
                             nth_error r i = Some c) labels x).
    { intros labels x Hincl; apply Forall2_impl_In.
      intros label c Hin; apply get_loc_shift.
      intros ->; apply Hn, Hincl, Hin. }
    assert (Hincl : incl (map fst (filter (fun c => is_number (snd c)) cols))
                         (map fst cols)).
    { intros label Hl; apply in_map_iff in Hl as (x & <- & Hx).
      apply filter_In in Hx as [Hx _]; now apply in_map. }
    unfold numeric_cells; cbn [combine filter fst snd map] in *.
    destruct (is_number d); cbn [map fst snd] in *.
    + inversion HF as [|label c labels x Hhead Htail]; subst.
      apply get_loc_head in Hhead; subst c.
      f_equal; apply (IH r x ND Hlen), Hshift; assumption.
    + apply (IH r r' ND Hlen), Hshift; assumption.
Qed.

(** Selecting the first [k] labels picks the first [k] cells of every
    row. *)
Lemma select_prefix_cells cols (r x : list cell) k :
  NoDup (map fst cols) ->
  length r = length cols ->
  Forall2 (fun label c =>
             exists i, get_loc cols label = inr i /\ nth_error r i = Some c)
          (firstn k (map fst cols)) x ->
  x = firstn k r.
Proof.
  revert r x k; induction cols as [|[nm d] cols IH]; intros r x k ND Hlen HF.
  - destruct r; [|discriminate].
    rewrite firstn_nil in *; inversion HF; reflexivity.
  - destruct r as [|c0 r]; [discriminate|].
    simpl in ND; apply NoDup_cons_iff in ND as [Hn ND].
    injection Hlen as Hlen.
    destruct k as [|k]; cbn [map fst firstn] in *;
      [inversion HF; reflexivity|].
    inversion HF as [|label c labels x' Hhead Htail]; subst.
    apply get_loc_head in Hhead; subst c.
    f_equal; apply (IH r x' k ND Hlen).
    revert Htail; apply Forall2_impl_In.
    intros label c Hin; apply get_loc_shift.
    intros ->; apply Hn.
    exact (In_firstn k (map fst cols) _ Hin).
Qed.

Lemma removelast_firstn_pred {A} (l : list A) :
  removelast l = firstn (length l - 1) l.
Proof.
  destruct l as [|x l] using rev_ind; [reflexivity|].
  rewrite removelast_last, length_app; simpl.
  replace (length l + 1 - 1) with (length l) by lia.
  rewrite firstn_app, firstn_all, Nat.sub_diag; simpl.
  now rewrite app_nil_r.
Qed.

(** The last label of a frame with distinct names sits at the last
    position. *)
Lemma get_loc_last cols init target :
  NoDup (map fst cols) ->
  map fst cols = init ++ [target] ->
  get_loc cols target = inr (length init).
Proof.
  revert init; induction cols as [|[nm d] cols IH]; intros init ND H.
  - destruct init; discriminate.
  - simpl in ND; apply NoDup_cons_iff in ND as [Hn ND].
    destruct init as [|a init]; simpl in H; injection H as -> H.
    + simpl; now rewrite String.eqb_refl.
    + simpl.
      destruct (String.eqb a target) eqn:E.
      * apply String.eqb_eq in E; subst a; exfalso; apply Hn.
        rewrite H; apply in_or_app; right; now left.
      * now rewrite (IH init ND H).
Qed.

Lemma nth_error_last {A} (l : list A) (c d : A) :
  nth_error l (length l - 1) = Some c -> last l d = c.
Proof.
  destruct l as [|x l] using rev_ind; [discriminate|].
  rewrite length_app, last_last; simpl.
  replace (length l + 1 - 1) with (length l) by lia.
  rewrite nth_error_app2, Nat.sub_diag by lia; simpl; congruence.
Qed.

(** Lines 30, 37 and 38 on a rectangular frame with distinct names: the
    three selections return, [X] is named by the features and holds, row
    by row, the numeric cells of the cleaned frame but the last, and [y]
    holds the last numeric cell of every row. *)
Lemma features_and_target df target :
  rectangular df ->
  unique_names df ->
  getitem_last (select_dtypes_number (dropna df)) = inr target ->
  exists df_numeric X y,
    getitem_columns (dropna df) (select_dtypes_number (dropna df))
      = inr df_numeric /\
    getitem_columns df_numeric (slice_to_last (select_dtypes_number (dropna df)))
      = inr X /\
    getitem_column df_numeric target = inr y /\
    column_names X = slice_to_last (select_dtypes_number (dropna df)) /\
    rows X = map (fun r => removelast (numeric_cells (columns df) r))
                 (rows (dropna df)) /\
    y = map (fun r => last (numeric_cells (columns df) r) NA)
            (rows (dropna df)).
Proof.
  intros Hrect Hun Elast.
  apply dropna_rectangular in Hrect.
  set (nc := select_dtypes_number (dropna df)) in *.
  pose proof (getitem_last_inv _ _ Elast) as Hnc.
  destruct (getitem_columns_total (dropna df) nc Hrect) as [dn Enum];
    [apply select_dtypes_number_incl|].
  pose proof (getitem_columns_names _ _ _ Enum) as Hnames.
  pose proof (getitem_columns_rectangular _ _ _ Enum) as Hrect'.
  destruct (getitem_columns_total dn (slice_to_last nc) Hrect') as [X EX].
  { rewrite Hnames; intros nm Hnm; rewrite Hnc; apply in_or_app; now left. }
  destruct (getitem_column_total dn target Hrect') as [y Ey].
  { rewrite Hnames, Hnc; apply in_or_app; right; now left. }
  exists dn, X, y.
  split; [exact Enum|]; split; [exact EX|]; split; [exact Ey|].
  split; [exact (getitem_columns_names _ _ _ EX)|].
  assert (NDnc : NoDup (map fst (columns dn))).
  { change (map fst (columns dn)) with (column_names dn); rewrite Hnames.
    now apply select_dtypes_number_NoDup. }
  assert (Hdn : rows dn = map (numeric_cells (columns df)) (rows (dropna df))).
  { apply Forall2_eq_map.
    pose proof (getitem_columns_cells _ _ _ Enum) as Hcells.
    unfold rectangular in Hrect; rewrite Forall_forall in Hrect.
    revert Hcells; apply Forall2_impl_In; intros r r' Hr Hrr'.
    exact (select_numeric_cells (columns df) r r' Hun (Hrect r Hr) Hrr'). }
  assert (Hwidth : Forall (fun r2 => length r2 = length nc) (rows dn)).
  { unfold rectangular in Hrect'.
    replace (length nc) with (length (columns dn)); [exact Hrect'|].
    rewrite <- Hnames; unfold column_names; now rewrite length_map. }
  split.
  - rewrite <- (map_map (numeric_cells (columns df)) (@removelast cell)), <- Hdn.
    apply Forall2_eq_map.
    pose proof (getitem_columns_cells _ _ _ EX) as Hcells.
    rewrite Forall_forall in Hwidth.
    revert Hcells; apply Forall2_impl_In; intros r2 x Hr2 Hx.
    rewrite removelast_firstn_pred, (Hwidth r2 Hr2).
    apply (select_prefix_cells (columns dn)); [exact NDnc| |].
    + unfold rectangular in Hrect'; rewrite Forall_forall in Hrect'.
      now apply Hrect'.
    + change (map fst (columns dn)) with (column_names dn); rewrite Hnames.
      unfold slice_to_last in Hx; now rewrite removelast_firstn_pred in Hx.
  - rewrite <- (map_map (numeric_cells (columns df)) (fun r2 => last r2 NA)),
      <- Hdn.
    apply Forall2_eq_map.
    unfold getitem_column, ebind in Ey.
    rewrite (get_loc_last (columns dn) (slice_to_last nc) target NDnc) in Ey
      by (change (map fst (columns dn)) with (column_names dn);
          now rewrite Hnames).
    apply mapM_Forall2 in Ey.
    rewrite Forall_forall in Hwidth.
    revert Ey; apply Forall2_impl_In; intros r2 c Hr2 Hc.
    symmetry; apply nth_error_last.
    rewrite (Hwidth r2 Hr2), <- slice_to_last_length.
    unfold iloc_cell in Hc.
    destruct (nth_error r2 _); [congruence|discriminate].
Qed.

(** ** Runs *)

Lemma outcome_bind {A B} (m : Run.M A) (k : A -> Run.M B) :
  Run.outcome (Run.bind m k)
  = match Run.outcome m with
    | inl e => inl e
    | inr a => Run.outcome (k a)
    end.
Proof.
  destruct m as [t [e|a]]; simpl; [reflexivity|].
  now destruct (k a).
Qed.

Lemma trace_bind {A B} (m : Run.M A) (k : A -> Run.M B) :
  Run.trace (Run.bind m k)
  = Run.trace m ++ match Run.outcome m with
                   | inl _ => []
                   | inr a => Run.trace (k a)
                   end.
Proof.
  destruct m as [t [e|a]]; simpl; [now rewrite app_nil_r|].
  now destruct (k a).
Qed.

Lemma outcome_call {A} (r : string + A) :
  Run.outcome (Run.call r)
  = match r with
    | inl msg => inl (LibraryError msg)
    | inr a => inr a
    end.
Proof. now destruct r. Qed.

Lemma trace_call {A} (r : string + A) : Run.trace (Run.call r) = [].
Proof. now destruct r. Qed.

Lemma outcome_try_except {A} (body : Run.M A) (h : exn -> exn) :
  Run.outcome (Run.try_except body h)
  = match Run.outcome body with
    | inl e => inl (h e)
    | inr a => inr a
    end.
Proof. now destruct body as [t [e|a]]. Qed.

Lemma trace_try_except {A} (body : Run.M A) (h : exn -> exn) :
  Run.trace (Run.try_except body h) = Run.trace body.
Proof. now destruct body as [t [e|a]]. Qed.

(** One step of a run: the next library call either raises or returns. *)
Ltac run_norm :=
  repeat (rewrite ?outcome_bind, ?trace_bind, ?outcome_call, ?trace_call;
          cbn [Run.outcome Run.trace Run.enter Run.raise Run.ret fst snd app]).

Ltac run_norm_in H :=
  repeat (rewrite ?outcome_bind, ?trace_bind, ?outcome_call, ?trace_call in H;
          cbn [Run.outcome Run.trace Run.enter Run.raise Run.ret fst snd app] in H).

Section PipelineFacts.

Variable read_csv : string -> string + DataFrame.
Variable RandomState : Type.
Variable seeded : Z -> RandomState.
Variable permutation : RandomState -> nat -> list nat.
Variable lstsq : list (list Q) -> list Q -> string + (list Q * Q).

Hypothesis permutation_spec :
  forall g n, Permutation (permutation g n) (seq 0 n).

Local Abbreviation body :=
  (process_csv_body read_csv RandomState seeded permutation lstsq).
Local Abbreviation run :=
  (process_csv read_csv RandomState seeded permutation lstsq).
Local Abbreviation split :=
  (train_test_split RandomState seeded permutation).

(** What a successful run went through. *)
Lemma body_success g path r :
  Run.outcome (body g path) = inr r ->
  exists df df_numeric target X y X_train X_test y_train y_test,
    let numeric_columns := select_dtypes_number (dropna df) in
    read_csv path = inr df /\
    2 <= length numeric_columns /\
    getitem_columns (dropna df) numeric_columns = inr df_numeric /\
    getitem_last numeric_columns = inr target /\
    getitem_columns df_numeric (slice_to_last numeric_columns) = inr X /\
    getitem_column df_numeric target = inr y /\
    10 <= len X /\
    split g X y (2 # 10) (Some 42%Z) = inr (X_train, X_test, y_train, y_test) /\
    info r = mkInfo (len df) (len (dropna df))
               (length (slice_to_last numeric_columns)) target
               (slice_to_last numeric_columns) (len X_train) (len X_test).
Proof.
  unfold process_csv_body; intros H.
  run_norm_in H.
  destruct (read_csv path) as [m|df] eqn:Eread; [discriminate|].
  run_norm_in H.
  destruct (length (select_dtypes_number (dropna df)) <? 2) eqn:Ecols;
    [discriminate|].
  run_norm_in H.
  destruct (getitem_columns (dropna df) _) as [m|df_numeric] eqn:Enum;
    [discriminate|].
  run_norm_in H.
  destruct (getitem_last _) as [m|target] eqn:Elast; [discriminate|].
  run_norm_in H.
  destruct (getitem_columns df_numeric _) as [m|X] eqn:EX; [discriminate|].
  run_norm_in H.
  destruct (getitem_column df_numeric target) as [m|y] eqn:Ey; [discriminate|].
  run_norm_in H.
  destruct (len X <? 10) eqn:Erows; [discriminate|].
  run_norm_in H.
  destruct (split g X y (2 # 10) (Some 42%Z))
    as [m|[[[X_train X_test] y_train] y_test]] eqn:Esplit; [discriminate|].
  run_norm_in H.
  destruct (fit lstsq X_train y_train) as [m|model]; [discriminate|].
  run_norm_in H.
  destruct (predict model X_test) as [m|y_pred]; [discriminate|].
  run_norm_in H.
  destruct (metrics.r2_score y_test y_pred) as [m|r2]; [discriminate|].
  run_norm_in H.
  destruct (metrics.mean_absolute_error y_test y_pred) as [m|mae_];
    [discriminate|].
  run_norm_in H.
  destruct (metrics.mean_squared_error y_test y_pred) as [m|mse_];
    [discriminate|].
  run_norm_in H.
  injection H as <-.
  apply Nat.ltb_ge in Ecols, Erows.
  exists df, df_numeric, target, X, y, X_train, X_test, y_train, y_test.
  cbn zeta; cbn [info]; repeat split; assumption || reflexivity.
Qed.

(** The two validation checks, when they fire. *)
Lemma body_columns_check g path df :
  read_csv path = inr df ->
  length (select_dtypes_number (dropna df)) < 2 ->
  body g path = ([Loader; Cleaner], inl InsufficientColumns).
Proof.
  intros Hread Hcols; unfold process_csv_body.
  rewrite Hread; cbn [Run.bind Run.enter Run.call app].
  apply Nat.ltb_lt in Hcols; now rewrite Hcols.
Qed.

Lemma body_samples_check g path df :
  read_csv path = inr df ->
  rectangular df ->
  2 <= length (select_dtypes_number (dropna df)) ->
  len (dropna df) < 10 ->
  body g path = ([Loader; Cleaner; Selector], inl InsufficientSamples).
Proof.
  intros Hread Hrect Hcols Hrows; unfold process_csv_body.
  rewrite Hread; cbn [Run.bind Run.enter Run.call app].
  apply Nat.ltb_ge in Hcols; rewrite Hcols.
  apply Nat.ltb_ge in Hcols.
  set (nc := select_dtypes_number (dropna df)) in *.
  destruct (getitem_columns_total (dropna df) nc) as [df_numeric Enum].
  { now apply dropna_rectangular. }
  { apply select_dtypes_number_incl. }
  rewrite Enum; cbn [Run.bind Run.enter Run.call app].
  destruct (getitem_last_total nc) as [target Elast]; [lia|].
  rewrite Elast; cbn [Run.bind Run.enter Run.call app].
  pose proof (getitem_last_inv _ _ Elast) as Hnc.
  pose proof (getitem_columns_names _ _ _ Enum) as Hnames.
  pose proof (getitem_columns_rectangular _ _ _ Enum) as Hrect'.
  destruct (getitem_columns_total df_numeric (slice_to_last nc)) as [X EX].
  { exact Hrect'. }
  { rewrite Hnames; intros nm Hnm; rewrite Hnc; apply in_or_app; now left. }
  rewrite EX; cbn [Run.bind Run.enter Run.call app].
  destruct (getitem_column_total df_numeric target) as [y Ey].
  { exact Hrect'. }
  { rewrite Hnames, Hnc; apply in_or_app; right; now left. }
  rewrite Ey; cbn [Run.bind Run.enter Run.call app].
  apply getitem_columns_len in EX, Enum.
  assert (Hlt : (len X <? 10) = true) by (apply Nat.ltb_lt; lia).
  now rewrite Hlt.
Qed.

(** Every exception raised inside the [try] block: a library's, or one
    of the two validation errors. *)
Lemma body_failure g path e :
  Run.outcome (body g path) = inl e ->
  (exists msg, e = LibraryError msg) \/
  (e = InsufficientColumns /\
   exists df, read_csv path = inr df /\
              length (select_dtypes_number (dropna df)) < 2) \/
  (e = InsufficientSamples /\
   exists df, read_csv path = inr df /\
              2 <= length (select_dtypes_number (dropna df)) /\
              len (dropna df) < 10).
Proof.
  unfold process_csv_body; intros H.
  run_norm_in H.
  destruct (read_csv path) as [m|df] eqn:Eread;
    [injection H as <-; left; now eexists|].
  run_norm_in H.
  destruct (length (select_dtypes_number (dropna df)) <? 2) eqn:Ecols.
  { injection H as <-; right; left; split; [reflexivity|].
    exists df; split; [reflexivity|now apply Nat.ltb_lt]. }
  run_norm_in H.
  destruct (getitem_columns (dropna df) _) as [m|df_numeric] eqn:Enum;
    [injection H as <-; left; now eexists|].
  run_norm_in H.
  destruct (getitem_last _) as [m|target] eqn:Elast;
    [injection H as <-; left; now eexists|].
  run_norm_in H.
  destruct (getitem_columns df_numeric _) as [m|X] eqn:EX;
    [injection H as <-; left; now eexists|].
  run_norm_in H.
  destruct (getitem_column df_numeric target) as [m|y] eqn:Ey;
    [injection H as <-; left; now eexists|].
  run_norm_in H.
  destruct (len X <? 10) eqn:Erows.
  { injection H as <-; right; right; split; [reflexivity|].
    exists df; split; [reflexivity|].
    apply Nat.ltb_ge in Ecols; apply Nat.ltb_lt in Erows.
    apply getitem_columns_len in EX, Enum.
    split; [exact Ecols|lia]. }
  run_norm_in H.
  destruct (split g X y (2 # 10) (Some 42%Z))
    as [m|[[[X_train X_test] y_train] y_test]];
    [injection H as <-; left; now eexists|].
  run_norm_in H.
  destruct (fit lstsq X_train y_train) as [m|model];
    [injection H as <-; left; now eexists|].
  run_norm_in H.
  destruct (predict model X_test) as [m|y_pred];
    [injection H as <-; left; now eexists|].
  run_norm_in H.
  destruct (metrics.r2_score y_test y_pred) as [m|r2];
    [injection H as <-; left; now eexists|].
  run_norm_in H.
  destruct (metrics.mean_absolute_error y_test y_pred) as [m|mae_];
    [injection H as <-; left; now eexists|].
  run_norm_in H.
  destruct (metrics.mean_squared_error y_test y_pred) as [m|mse_];
    [injection H as <-; left; now eexists|].
  run_norm_in H; discriminate.
Qed.

(** Everything a successful run computed, line by line. *)
Lemma body_success_full g path r :
  Run.outcome (body g path) = inr r ->
  exists df df_numeric target X y X_train X_test y_train y_test model y_pred,
    let numeric_columns := select_dtypes_number (dropna df) in
    read_csv path = inr df /\
    getitem_columns (dropna df) numeric_columns = inr df_numeric /\
    getitem_last numeric_columns = inr target /\
    getitem_columns df_numeric (slice_to_last numeric_columns) = inr X /\
    getitem_column df_numeric target = inr y /\
    10 <= len X /\
    split g X y (2 # 10) (Some 42%Z) = inr (X_train, X_test, y_train, y_test) /\
    fit lstsq X_train y_train = inr model /\
    predict model X_test = inr y_pred /\
    metrics.r2_score y_test y_pred = inr (r2_score r) /\
    metrics.mean_absolute_error y_test y_pred = inr (mae r) /\
    metrics.mean_squared_error y_test y_pred = inr (mse r) /\
    info r = mkInfo (len df) (len (dropna df))
               (length (slice_to_last numeric_columns)) target
               (slice_to_last numeric_columns) (len X_train) (len X_test).
Proof.
  unfold process_csv_body; intros H.
  run_norm_in H.
  destruct (read_csv path) as [m|df] eqn:Eread; [discriminate|].
  run_norm_in H.
  destruct (length (select_dtypes_number (dropna df)) <? 2) eqn:Ecols;
    [discriminate|].
  run_norm_in H.
  destruct (getitem_columns (dropna df) _) as [m|df_numeric] eqn:Enum;
    [discriminate|].
  run_norm_in H.
  destruct (getitem_last _) as [m|target] eqn:Elast; [discriminate|].
  run_norm_in H.
  destruct (getitem_columns df_numeric _) as [m|X] eqn:EX; [discriminate|].
  run_norm_in H.
  destruct (getitem_column df_numeric target) as [m|y] eqn:Ey; [discriminate|].
  run_norm_in H.
  destruct (len X <? 10) eqn:Erows; [discriminate|].
  run_norm_in H.
  destruct (split g X y (2 # 10) (Some 42%Z))
    as [m|[[[X_train X_test] y_train] y_test]] eqn:Esplit; [discriminate|].
  run_norm_in H.
  destruct (fit lstsq X_train y_train) as [m|model] eqn:Efit; [discriminate|].
  run_norm_in H.
  destruct (predict model X_test) as [m|y_pred] eqn:Epred; [discriminate|].
  run_norm_in H.
  destruct (metrics.r2_score y_test y_pred) as [m|r2] eqn:Er2;
    [discriminate|].
  run_norm_in H.
  destruct (metrics.mean_absolute_error y_test y_pred) as [m|mae_] eqn:Emae;
    [discriminate|].
  run_norm_in H.
  destruct (metrics.mean_squared_error y_test y_pred) as [m|mse_] eqn:Emse;
    [discriminate|].
  run_norm_in H.
  injection H as <-.
  apply Nat.ltb_ge in Erows.
  exists df, df_numeric, target, X, y, X_train, X_test, y_train, y_test,
    model, y_pred.
  cbn zeta; cbn [r2_score mae mse info].
  repeat split; assumption.
Qed.

Lemma run_outcome_body g path r :
  Run.outcome (run g path) = inr r -> Run.outcome (body g path) = inr r.
Proof.
  unfold process_csv; rewrite outcome_try_except.
  destruct (Run.outcome (body g path)); [discriminate|auto].
Qed.

(** C2. Given the loaded frame, the body of the pipeline raises
    InsufficientColumns exactly when fewer than 2 numeric columns remain
    after cleaning; the caller then receives it re-wrapped; and with
    exactly 2 numeric columns it is not raised. *)
Theorem insufficient_columns_iff g path df :
  read_csv path = inr df ->
  (Run.outcome (body g path) = inl InsufficientColumns
     <-> length (select_dtypes_number (dropna df)) < 2) /\
  (length (select_dtypes_number (dropna df)) < 2 ->
     Run.outcome (run g path) = inl (wrap InsufficientColumns)) /\
  (length (select_dtypes_number (dropna df)) = 2 ->
     Run.outcome (body g path) <> inl InsufficientColumns).
Proof.
  intros Hread.
  assert (Hiff : Run.outcome (body g path) = inl InsufficientColumns
                 <-> length (select_dtypes_number (dropna df)) < 2).
  { split.
    - intros H; apply body_failure in H
        as [[msg H]|[(_ & df' & Hread' & H)|(H & _)]].
      + discriminate.
      + rewrite Hread in Hread'; injection Hread' as <-; exact H.
      + discriminate.
    - intros H; now rewrite (body_columns_check g path df Hread H). }
  split; [exact Hiff|split].
  - intros H; unfold process_csv.
    now rewrite (body_columns_check g path df Hread H).
  - intros H2 H; apply Hiff in H; lia.
Qed.

(** C3, amended. Given the loaded frame, the body of the pipeline raises
    InsufficientSamples exactly when at least 2 numeric columns remain
    and fewer than 10 rows are left after dropping the rows with missing
    values; the caller then receives it re-wrapped; and with exactly 10
    cleaned rows it is not raised. *)
Theorem insufficient_samples_iff g path df :
  read_csv path = inr df ->
  rectangular df ->
  (Run.outcome (body g path) = inl InsufficientSamples
     <-> 2 <= length (select_dtypes_number (dropna df)) /\
         len (dropna df) < 10) /\
  (2 <= length (select_dtypes_number (dropna df)) /\ len (dropna df) < 10 ->
     Run.outcome (run g path) = inl (wrap InsufficientSamples)) /\
  (len (dropna df) = 10 ->
     Run.outcome (body g path) <> inl InsufficientSamples).
Proof.
  intros Hread Hrect.
  assert (Hiff : Run.outcome (body g path) = inl InsufficientSamples
                 <-> 2 <= length (select_dtypes_number (dropna df)) /\
                     len (dropna df) < 10).
  { split.
    - intros H; apply body_failure in H
        as [[msg H]|[(H & _)|(_ & df' & Hread' & H)]].
      + discriminate.
      + discriminate.
      + rewrite Hread in Hread'; injection Hread' as <-; exact H.
    - intros [Hc Hr].
      now rewrite (body_samples_check g path df Hread Hrect Hc Hr). }
  split; [exact Hiff|split].
  - intros [Hc Hr]; unfold process_csv.
    now rewrite (body_samples_check g path df Hread Hrect Hc Hr).
  - intros H10 H; apply Hiff in H; lia.
Qed.

(** C4. For every frame whose cleaned table keeps at least 2 numeric
    columns, lines 34-35 name as target the last numeric column in the
    order of the file, and as features the numeric columns before it, in
    that order; these are the names a successful run reports.  On a
    rectangular frame with distinct column names lines 30, 37 and 38
    return: [X] carries the feature names and holds, row by row, the
    numeric cells of the cleaned frame but the last, [y] holds the last
    numeric cell of every row, and these [X] and [y] are what a
    successful run splits, fits and scores. *)
Theorem last_numeric_column_is_target df :
  2 <= length (select_dtypes_number (dropna df)) ->
  exists target,
    getitem_last (select_dtypes_number (dropna df)) = inr target /\
    map fst (filter (fun c => is_number (snd c)) (columns df))
      = slice_to_last (select_dtypes_number (dropna df)) ++ [target] /\
    (forall g path r,
       read_csv path = inr df ->
       Run.outcome (run g path) = inr r ->
       feature_names (info r) = slice_to_last (select_dtypes_number (dropna df))
       /\ target_column (info r) = target) /\
    (rectangular df ->
     unique_names df ->
     exists df_numeric X y,
       getitem_columns (dropna df) (select_dtypes_number (dropna df))
         = inr df_numeric /\
       getitem_columns df_numeric
         (slice_to_last (select_dtypes_number (dropna df))) = inr X /\
       getitem_column df_numeric target = inr y /\
       column_names X = slice_to_last (select_dtypes_number (dropna df)) /\
       rows X = map (fun row => removelast (numeric_cells (columns df) row))
                    (rows (dropna df)) /\
       y = map (fun row => last (numeric_cells (columns df) row) NA)
               (rows (dropna df)) /\
       forall g path r,
         read_csv path = inr df ->
         Run.outcome (run g path) = inr r ->
         exists X_train X_test y_train y_test model y_pred,
           train_test_split RandomState seeded permutation g X y (2 # 10)
             (Some 42%Z) = inr (X_train, X_test, y_train, y_test) /\
           fit lstsq X_train y_train = inr model /\
           predict model X_test = inr y_pred /\
           metrics.r2_score y_test y_pred = inr (r2_score r) /\
           metrics.mean_absolute_error y_test y_pred = inr (mae r) /\
           metrics.mean_squared_error y_test y_pred = inr (mse r)).
Proof.
  intros Hcols.
  destruct (getitem_last_total (select_dtypes_number (dropna df)))
    as [target Elast]; [lia|].
  exists target; split; [exact Elast|split; [|split]].
  - exact (getitem_last_inv _ _ Elast).
  - intros g path r Hread Hrun.
    apply run_outcome_body, body_success_full in Hrun
      as (df' & dn & t & X & y & Xtr & Xte & ytr & yte & model & yp & Hread'
          & _ & Elast' & _ & _ & _ & _ & _ & _ & _ & _ & _ & Hinfo).
    cbn zeta in *.
    rewrite Hread in Hread'; injection Hread' as <-.
    rewrite Elast in Elast'; injection Elast' as <-.
    now rewrite Hinfo.
  - intros Hrect Hun.
    destruct (features_and_target df target Hrect Hun Elast)
      as (dn & X & y & Enum & EX & Ey & Hnames & HX & Hy).
    exists dn, X, y.
    repeat (split; [assumption|]).
    intros g path r Hread Hrun.
    apply run_outcome_body, body_success_full in Hrun
      as (df' & dn' & t & X' & y' & Xtr & Xte & ytr & yte & model & yp
          & Hread' & Enum' & Elast' & EX' & Ey' & _ & Esplit & Efit & Epred
          & Er & Ea & Es & _).
    cbn zeta in *.
    rewrite Hread in Hread'; injection Hread' as <-.
    rewrite Elast in Elast'; injection Elast' as <-.
    rewrite Enum in Enum'; injection Enum' as <-.
    rewrite EX in EX'; injection EX' as <-.
    rewrite Ey in Ey'; injection Ey' as <-.
    exists Xtr, Xte, ytr, yte, model, yp.
    repeat split; assumption.
Qed.

(** C5. In every successful run the Splitter is handed the feature frame
    [X] and the target [y] of lines 37-38, whose rows are the cleaned
    rows; the parts it returns are the rows of [X] and the entries of [y]
    at the positions of a TRAIN and a TEST index list, whose lengths the
    record reports as [train_size] and [test_size]; the two lists share
    no index, repeat no index, and together hold exactly the positions
    [0 .. rows_after_cleaning - 1] of the cleaned rows. *)
Theorem split_partitions_rows g path r :
  Run.outcome (run g path) = inr r ->
  exists df df_numeric target X y ind_train ind_test
         X_train X_test y_train y_test,
    read_csv path = inr df /\
    getitem_columns (dropna df) (select_dtypes_number (dropna df))
      = inr df_numeric /\
    getitem_last (select_dtypes_number (dropna df)) = inr target /\
    getitem_columns df_numeric
      (slice_to_last (select_dtypes_number (dropna df))) = inr X /\
    getitem_column df_numeric target = inr y /\
    length (rows X) = length (rows (dropna df)) /\
    length y = length (rows (dropna df)) /\
    rows_after_cleaning (info r) = length (rows (dropna df)) /\
    train_test_split RandomState seeded permutation g X y (2 # 10)
      (Some 42%Z) = inr (X_train, X_test, y_train, y_test) /\
    Forall2 (fun i x => nth_error (rows X) i = Some x)
            ind_train (rows X_train) /\
    Forall2 (fun i x => nth_error (rows X) i = Some x)
            ind_test (rows X_test) /\
    Forall2 (fun i c => nth_error y i = Some c) ind_train y_train /\
    Forall2 (fun i c => nth_error y i = Some c) ind_test y_test /\
    train_size (info r) = length ind_train /\
    test_size (info r) = length ind_test /\
    (forall i, In i ind_train -> ~ In i ind_test) /\
    (forall i, In i ind_train \/ In i ind_test
               <-> i < rows_after_cleaning (info r)) /\
    NoDup ind_train /\ NoDup ind_test.
Proof.
  intros Hrun.
  apply run_outcome_body, body_success_full in Hrun
    as (df & dn & t & X & y & Xtr & Xte & ytr & yte & model & yp
        & Hread & Enum & Elast & EX & Ey & Hn & Esplit & _ & _ & _ & _ & _
        & Hinfo).
  cbn zeta in *.
  destruct (train_test_split_indices _ _ _ _ _ _ _ _ _ _ _ _ Esplit)
    as (tr & te & E & F1 & F2 & F3 & F4 & _ & _).
  assert (HlenX : len X = len (dropna df)).
  { apply getitem_columns_len in EX, Enum; congruence. }
  assert (Hleny : length y = len (dropna df)).
  { apply getitem_column_len in Ey; apply getitem_columns_len in Enum.
    congruence. }
  exists df, dn, t, X, y, tr, te, Xtr, Xte, ytr, yte.
  rewrite Hinfo; cbn [rows_after_cleaning train_size test_size].
  split; [exact Hread|]; split; [exact Enum|]; split; [exact Elast|].
  split; [exact EX|]; split; [exact Ey|].
  split; [exact HlenX|]; split; [exact Hleny|]; split; [reflexivity|].
  split; [exact Esplit|].
  split; [exact F1|]; split; [exact F2|]; split; [exact F3|].
  split; [exact F4|].
  split; [exact (eq_sym (Forall2_length F1))|].
  split; [exact (eq_sym (Forall2_length F2))|].
  pose proof (shuffle_split_perm _ _ _ permutation_spec _ _ _ _ _ _ E) as HP.
  assert (ND : NoDup (te ++ tr)).
  { apply (Permutation_NoDup (Permutation_sym HP)), seq_NoDup. }
  repeat split.
  - intros i Htr Hte; exact (NoDup_app_disjoint _ _ ND i Hte Htr).
  - intros Hi; fold (len (dropna df)); rewrite <- HlenX.
    exact (shuffle_split_in_range _ _ _ permutation_spec _ _ _ _ _ _ E i Hi).
  - intros Hi.
    assert (Hin : In i (seq 0 (len X))).
    { apply in_seq; fold (len (dropna df)) in Hi; lia. }
    apply (Permutation_in _ (Permutation_sym HP)) in Hin.
    apply in_app_or in Hin; tauto.
  - now apply NoDup_app_remove_l in ND.
  - now apply NoDup_app_remove_r in ND.
Qed.

(** C6. The result of a run, its metrics and counters included, does not
    depend on the state of the process-wide generator nor on the path by
    which the same file content is reached; and the TRAIN and TEST index
    lists for [n] rows are the same in any two runs. *)
Theorem pipeline_deterministic g1 g2 path1 path2 :
  read_csv path1 = read_csv path2 ->
  run g1 path1 = run g2 path2 /\
  forall n,
    shuffle_split RandomState seeded permutation g1 n (2 # 10) (Some 42%Z)
    = shuffle_split RandomState seeded permutation g2 n (2 # 10) (Some 42%Z).
Proof.
  intros Hread; split; [|reflexivity].
  unfold process_csv, process_csv_body; now rewrite Hread.
Qed.

(** C9. In every successful result record, [train_size + test_size] is
    [rows_after_cleaning], and [rows_after_cleaning] is at most
    [total_rows]. *)
Theorem sizes_add_up g path r :
  Run.outcome (run g path) = inr r ->
  train_size (info r) + test_size (info r) = rows_after_cleaning (info r) /\
  rows_after_cleaning (info r) <= total_rows (info r).
Proof.
  intros Hrun.
  unfold process_csv in Hrun; rewrite outcome_try_except in Hrun.
  destruct (Run.outcome (body g path)) as [e|r'] eqn:E; [discriminate|].
  injection Hrun as ->.
  apply body_success in E
    as (df & dn & t & X & y & Xtr & Xte & ytr & yte & _ & _ & Enum
        & _ & EX & _ & _ & Esplit & Hinfo).
  cbn zeta in *; rewrite Hinfo.
  cbn [train_size test_size rows_after_cleaning total_rows].
  apply getitem_columns_len in Enum, EX.
  rewrite (train_test_split_len _ _ _ permutation_spec _ _ _ _ _ _ _ _ _ Esplit).
  split; [congruence|apply dropna_len].
Qed.

(** C10. In every successful result record of a run on a frame with
    distinct column names, [target_column] is not among [feature_names],
    [feature_columns] is the length of [feature_names], and it is at
    least 1. *)
Theorem target_not_a_feature g path df r :
  read_csv path = inr df ->
  unique_names df ->
  Run.outcome (run g path) = inr r ->
  ~ In (target_column (info r)) (feature_names (info r)) /\
  feature_columns (info r) = length (feature_names (info r)) /\
  1 <= feature_columns (info r).
Proof.
  intros Hread Huniq Hrun.
  unfold process_csv in Hrun; rewrite outcome_try_except in Hrun.
  destruct (Run.outcome (body g path)) as [e|r'] eqn:E; [discriminate|].
  injection Hrun as ->.
  apply body_success in E
    as (df' & dn & t & X & y & Xtr & Xte & ytr & yte & Hread' & Hcols & _
        & Elast & _ & _ & _ & _ & Hinfo).
  cbn zeta in *.
  rewrite Hread in Hread'; injection Hread' as <-.
  rewrite Hinfo; cbn [target_column feature_names feature_columns].
  pose proof (getitem_last_inv _ _ Elast) as Hnc.
  pose proof (select_dtypes_number_NoDup _ Huniq) as ND.
  rewrite <- select_dtypes_number_dropna, Hnc in ND.
  repeat split.
  - apply NoDup_remove_2 in ND; now rewrite app_nil_r in ND.
  - rewrite slice_to_last_length; lia.
Qed.

(** The stages a run entered: an initial segment of the pipeline, the
    whole of it exactly when the run succeeds. *)
Lemma body_trace g path :
  exists rest,
    Run.trace (body g path) ++ rest = pipeline_stages /\
    match Run.outcome (body g path) with
    | inr _ => rest = []
    | inl _ => rest <> []
    end.
Proof.
  unfold process_csv_body.
  run_norm.
  destruct (read_csv path) as [m|df];
    [eexists; split; [reflexivity|discriminate]|].
  run_norm.
  destruct (length (select_dtypes_number (dropna df)) <? 2);
    [eexists; split; [reflexivity|discriminate]|].
  run_norm.
  destruct (getitem_columns (dropna df) _) as [m|df_numeric];
    [eexists; split; [reflexivity|discriminate]|].
  run_norm.
  destruct (getitem_last _) as [m|target];
    [eexists; split; [reflexivity|discriminate]|].
  run_norm.
  destruct (getitem_columns df_numeric _) as [m|X];
    [eexists; split; [reflexivity|discriminate]|].
  run_norm.
  destruct (getitem_column df_numeric target) as [m|y];
    [eexists; split; [reflexivity|discriminate]|].
  run_norm.
  destruct (len X <? 10);
    [eexists; split; [reflexivity|discriminate]|].
  run_norm.
  destruct (split g X y (2 # 10) (Some 42%Z))
    as [m|[[[X_train X_test] y_train] y_test]];
    [eexists; split; [reflexivity|discriminate]|].
  run_norm.
  destruct (fit lstsq X_train y_train) as [m|model];
    [eexists; split; [reflexivity|discriminate]|].
  run_norm.
  destruct (predict model X_test) as [m|y_pred];
    [eexists; split; [reflexivity|discriminate]|].
  run_norm.
  destruct (metrics.r2_score y_test y_pred) as [m|r2];
    [eexists; split; [reflexivity|discriminate]|].
  run_norm.
  destruct (metrics.mean_absolute_error y_test y_pred) as [m|mae_];
    [eexists; split; [reflexivity|discriminate]|].
  run_norm.
  destruct (metrics.mean_squared_error y_test y_pred) as [m|mse_];
    [eexists; split; [reflexivity|discriminate]|].
  run_norm.
  exists []; split; reflexivity.
Qed.

Lemma wrap_checks_differ :
  wrap InsufficientColumns <> wrap InsufficientSamples.
Proof. discriminate. Qed.

(** C8, amended. Every exception raised inside the pipeline (a library's,
    or one of the two validation errors) reaches the caller as one
    [Exception] whose message is ["ML processing error: "] followed by the
    message of the original; the two validation errors keep distinct
    messages.  The stages entered
    are an initial segment of the pipeline, each entered once, and complete
    exactly on success: nothing runs after a failure and nothing runs
    again. *)
Theorem errors_wrapped_never_retried g path :
  match Run.outcome (run g path) with
  | inr r =>
      Run.outcome (body g path) = inr r /\
      Run.trace (run g path) = pipeline_stages
  | inl e' =>
      exists e,
        Run.outcome (body g path) = inl e /\
        e' = Exception ("ML processing error: " ++ str e) /\
        ((exists msg, e = LibraryError msg) \/
         e = InsufficientColumns \/ e = InsufficientSamples) /\
        exists rest,
          rest <> [] /\ Run.trace (run g path) ++ rest = pipeline_stages
  end /\
  NoDup (Run.trace (run g path)) /\
  wrap InsufficientColumns <> wrap InsufficientSamples.
Proof.
  destruct (body_trace g path) as (rest & Htrace & Hrest).
  unfold process_csv; rewrite outcome_try_except, trace_try_except.
  split; [|split].
  - destruct (Run.outcome (body g path)) as [e|r] eqn:E.
    + exists e; split; [reflexivity|]; split; [reflexivity|]; split.
      * apply body_failure in E as [H|[[H _]|[H _]]]; auto.
      * now exists rest.
    + subst rest; rewrite app_nil_r in Htrace; now split.
  - assert (ND : NoDup pipeline_stages).
    { unfold pipeline_stages.
      repeat (constructor; [simpl; intuition discriminate|]); constructor. }
    rewrite <- Htrace in ND; now apply NoDup_app_remove_r in ND.
  - exact wrap_checks_differ.
Qed.

End PipelineFacts.

(** ** Metrics on perfect predictions *)

Lemma sum_zeros (l : list Q) :
  Forall (fun d => d == 0) l -> metrics.sum l == 0.
Proof.
  induction 1 as [|d l Hd _ IH]; simpl; [reflexivity|].
  rewrite Hd, IH; reflexivity.
Qed.

Lemma average_zeros (l : list Q) :
  Forall (fun d => d == 0) l -> metrics.average l == 0.
Proof.
  intros H; unfold metrics.average, Qdiv.
  rewrite (sum_zeros l H); apply Qmult_0_l.
Qed.

Lemma residuals_zeros (yt yp : list Q) :
  Forall2 Qeq yt yp -> Forall (fun d => d == 0) (metrics.residuals yt yp).
Proof.
  unfold metrics.residuals.
  induction 1 as [|a p yt yp Hap _ IH]; simpl; constructor; [|exact IH].
  simpl; rewrite Hap; ring.
Qed.

Lemma Forall_map_zero (f : Q -> Q) (l : list Q) :
  (forall d, d == 0 -> f d == 0) ->
  Forall (fun d => d == 0) l -> Forall (fun d => d == 0) (map f l).
Proof.
  intros Hf; induction 1; simpl; constructor; auto.
Qed.

Lemma Qabs_zero (d : Q) : d == 0 -> Qabs d == 0.
Proof. intros ->; reflexivity. Qed.

Lemma square_zero (d : Q) : d == 0 -> metrics.square d == 0.
Proof. intros H; unfold metrics.square; rewrite H; ring. Qed.

Lemma check_reg_targets_ok (y_true : Series) (yt yp : list Q) :
  check_array y_true = inr yt ->
  length yt = length yp ->
  1 <= length yt ->
  metrics.check_reg_targets y_true yp = inr (yt, yp).
Proof.
  intros Hc Hlen Hpos; unfold metrics.check_reg_targets.
  pose proof (mapM_length _ _ _ Hc) as Hl.
  replace (length y_true =? length yp) with true
    by (symmetry; apply Nat.eqb_eq; congruence).
  cbn [negb]; rewrite Hc; cbn [ebind].
  destruct (length yt =? 0) eqn:E; [|reflexivity].
  apply Nat.eqb_eq in E; lia.
Qed.

(** C7, amended. When every prediction equals the actual value of its
    row: MAE and MSE are 0 for every non-empty pair of vectors, and R² is
    exactly 1 for every pair of at least 2 rows (the test set of a run
    always has at least 2); on a single row [r2_score] answers NaN. *)
Theorem perfect_predictions (y_true : Series) (yt y_pred : list Q) :
  check_array y_true = inr yt ->
  Forall2 Qeq yt y_pred ->
  1 <= length yt ->
  (exists m, metrics.mean_absolute_error y_true y_pred = inr (Real m) /\ m == 0) /\
  (exists m, metrics.mean_squared_error y_true y_pred = inr (Real m) /\ m == 0) /\
  (2 <= length yt -> metrics.r2_score y_true y_pred = inr (Real 1)) /\
  (length yt = 1 -> metrics.r2_score y_true y_pred = inr NaN).
Proof.
  intros Hc Heq Hpos.
  pose proof (Forall2_length Heq) as Hlen.
  pose proof (check_reg_targets_ok _ _ _ Hc Hlen Hpos) as Hchk.
  pose proof (residuals_zeros _ _ Heq) as Hres.
  unfold metrics.mean_absolute_error, metrics.mean_squared_error,
    metrics.r2_score.
  rewrite Hchk; cbn [ebind fst snd].
  split; [|split; [|split]].
  - eexists; split; [reflexivity|].
    apply average_zeros, Forall_map_zero; [exact Qabs_zero|exact Hres].
  - eexists; split; [reflexivity|].
    apply average_zeros, Forall_map_zero; [exact square_zero|exact Hres].
  - intros H2.
    replace (length y_pred <? 2) with false
      by (symmetry; apply Nat.ltb_ge; lia).
    assert (Hnum : metrics.nonzero
                     (metrics.sum (map metrics.square
                                       (metrics.residuals yt y_pred))) = false).
    { unfold metrics.nonzero; apply negb_false_iff, Qeq_bool_iff.
      apply sum_zeros, Forall_map_zero; [exact square_zero|exact Hres]. }
    now rewrite Hnum.
  - intros H1.
    replace (length y_pred <? 2) with true
      by (symmetry; apply Nat.ltb_lt; lia).
    reflexivity.
Qed.

(** ** The pipeline on concrete files *)

Lemma demo_permutation_spec (g : Demo.RandomState) (n : nat) :
  Permutation (Demo.permutation g n) (seq 0 n).
Proof.
  unfold Demo.permutation; destruct (Nat.even g).
  - apply Permutation_sym, Permutation_rev.
  - apply Permutation_refl.
Qed.

Lemma demo_frame_rectangular (n : nat) : rectangular (Demo.frame n).
Proof.
  unfold rectangular, Demo.frame; cbn [rows columns].
  apply Forall_forall; intros r Hr.
  apply in_map_iff in Hr as (i & <- & _); reflexivity.
Qed.

Lemma demo_frame_unique_names (n : nat) : unique_names (Demo.frame n).
Proof.
  unfold unique_names, column_names, Demo.frame; cbn [columns map fst].
  repeat (constructor; [simpl; intuition discriminate|]); constructor.
Qed.

Lemma split_sizes_witness :
  len Demo.X = length Demo.y /\
  10 <= len Demo.X /\
  exists X_train X_test y_train y_test,
    train_test_split Demo.RandomState Demo.seeded Demo.permutation 0%nat
      Demo.X Demo.y (2 # 10) (Some 42%Z)
      = inr (X_train, X_test, y_train, y_test) /\
    len X_test = Z.to_nat (Qceiling ((2 # 10) * Qnat (len Demo.X))) /\
    len X_train = len Demo.X - len X_test /\
    len X_train = Z.to_nat (Qfloor ((8 # 10) * Qnat (len Demo.X))) /\
    length y_train = len X_train /\
    length y_test = len X_test.
Proof.
  split; [reflexivity|].
  split; [vm_compute; lia|].
  apply (split_sizes Demo.RandomState Demo.seeded Demo.permutation
           demo_permutation_spec 0%nat Demo.X Demo.y).
  - reflexivity.
  - vm_compute; lia.
Defined.

(** C1 as stated fails: eleven cleaned rows pass both checks and are split
    into 8 training and 3 test rows, where [round(11 * 0.8)] is 9. *)
Lemma split_sizes_not_rounded :
  exists r,
    Run.outcome (Demo.process_csv 0%nat "eleven.csv") = inr r /\
    rows_after_cleaning (info r) = 11 /\
    train_size (info r) = 8 /\
    test_size (info r) = 3 /\
    spec_train_size (rows_after_cleaning (info r)) = 9 /\
    train_size (info r) <> spec_train_size (rows_after_cleaning (info r)).
Proof.
  eexists; split; [vm_compute; reflexivity|].
  cbn [info rows_after_cleaning train_size test_size].
  repeat split; try reflexivity.
  vm_compute; discriminate.
Qed.

Lemma split_partitions_rows_witness :
  exists r,
    Run.outcome (Demo.process_csv 0%nat "ten.csv") = inr r /\
    exists df df_numeric target X y ind_train ind_test
           X_train X_test y_train y_test,
      Demo.read_csv "ten.csv" = inr df /\
      getitem_columns (dropna df) (select_dtypes_number (dropna df))
        = inr df_numeric /\
      getitem_last (select_dtypes_number (dropna df)) = inr target /\
      getitem_columns df_numeric
        (slice_to_last (select_dtypes_number (dropna df))) = inr X /\
      getitem_column df_numeric target = inr y /\
      length (rows X) = length (rows (dropna df)) /\
      length y = length (rows (dropna df)) /\
      rows_after_cleaning (info r) = length (rows (dropna df)) /\
      train_test_split Demo.RandomState Demo.seeded Demo.permutation 0%nat
        X y (2 # 10) (Some 42%Z) = inr (X_train, X_test, y_train, y_test) /\
      Forall2 (fun i x => nth_error (rows X) i = Some x)
              ind_train (rows X_train) /\
      Forall2 (fun i x => nth_error (rows X) i = Some x)
              ind_test (rows X_test) /\
      Forall2 (fun i c => nth_error y i = Some c) ind_train y_train /\
      Forall2 (fun i c => nth_error y i = Some c) ind_test y_test /\
      train_size (info r) = length ind_train /\
      test_size (info r) = length ind_test /\
      (forall i, In i ind_train -> ~ In i ind_test) /\
      (forall i, In i ind_train \/ In i ind_test
                 <-> i < rows_after_cleaning (info r)) /\
      NoDup ind_train /\ NoDup ind_test.
Proof.
  eexists; split; [vm_compute; reflexivity|].
  apply (split_partitions_rows Demo.read_csv Demo.RandomState Demo.seeded
           Demo.permutation Demo.lstsq demo_permutation_spec 0%nat "ten.csv").
  vm_compute; reflexivity.
Defined.

Lemma insufficient_columns_iff_witness :
  Demo.read_csv "narrow.csv" = inr Demo.narrow /\
  (Run.outcome (Demo.process_csv_body 0%nat "narrow.csv")
     = inl InsufficientColumns
   <-> length (select_dtypes_number (dropna Demo.narrow)) < 2) /\
  (length (select_dtypes_number (dropna Demo.narrow)) < 2 ->
   Run.outcome (Demo.process_csv 0%nat "narrow.csv")
     = inl (wrap InsufficientColumns)) /\
  (length (select_dtypes_number (dropna Demo.narrow)) = 2 ->
   Run.outcome (Demo.process_csv_body 0%nat "narrow.csv")
     <> inl InsufficientColumns).
Proof.
  split; [reflexivity|].
  apply (insufficient_columns_iff Demo.read_csv Demo.RandomState Demo.seeded
           Demo.permutation Demo.lstsq 0%nat "narrow.csv" Demo.narrow).
  reflexivity.
Defined.

Lemma insufficient_samples_iff_witness :
  Demo.read_csv "nine.csv" = inr (Demo.frame 9) /\
  rectangular (Demo.frame 9) /\
  (Run.outcome (Demo.process_csv_body 0%nat "nine.csv")
     = inl InsufficientSamples
   <-> 2 <= length (select_dtypes_number (dropna (Demo.frame 9))) /\
       len (dropna (Demo.frame 9)) < 10) /\
  (2 <= length (select_dtypes_number (dropna (Demo.frame 9))) /\
   len (dropna (Demo.frame 9)) < 10 ->
   Run.outcome (Demo.process_csv 0%nat "nine.csv")
     = inl (wrap InsufficientSamples)) /\
  (len (dropna (Demo.frame 9)) = 10 ->
   Run.outcome (Demo.process_csv_body 0%nat "nine.csv")
     <> inl InsufficientSamples).
Proof.
  split; [reflexivity|].
  split; [apply demo_frame_rectangular|].
  apply (insufficient_samples_iff Demo.read_csv Demo.RandomState Demo.seeded
           Demo.permutation Demo.lstsq 0%nat "nine.csv" (Demo.frame 9)).
  - reflexivity.
  - apply demo_frame_rectangular.
Defined.

(** C3 as stated fails: a frame with one numeric column and three rows has
    fewer than 10 cleaned rows, and the exception raised is
    InsufficientColumns, not InsufficientSamples. *)
Lemma few_rows_but_columns_checked_first :
  Demo.read_csv "narrow.csv" = inr Demo.narrow /\
  len (dropna Demo.narrow) = 3 /\
  Run.outcome (Demo.process_csv_body 0%nat "narrow.csv")
    = inl InsufficientColumns /\
  Run.outcome (Demo.process_csv_body 0%nat "narrow.csv")
    <> inl InsufficientSamples /\
  Run.outcome (Demo.process_csv 0%nat "narrow.csv")
    = inl (Exception "ML processing error: Dataset must have at least 2 numeric columns for regression analysis").
Proof.
  repeat split; try reflexivity.
  vm_compute; discriminate.
Qed.

Lemma last_numeric_column_is_target_witness :
  2 <= length (select_dtypes_number (dropna (Demo.frame 10))) /\
  exists target,
    getitem_last (select_dtypes_number (dropna (Demo.frame 10))) = inr target /\
    map fst (filter (fun c => is_number (snd c)) (columns (Demo.frame 10)))
      = slice_to_last (select_dtypes_number (dropna (Demo.frame 10)))
          ++ [target] /\
    (forall g path r,
       Demo.read_csv path = inr (Demo.frame 10) ->
       Run.outcome (Demo.process_csv g path) = inr r ->
       feature_names (info r)
         = slice_to_last (select_dtypes_number (dropna (Demo.frame 10))) /\
       target_column (info r) = target) /\
    (rectangular (Demo.frame 10) ->
     unique_names (Demo.frame 10) ->
     exists df_numeric X y,
       getitem_columns (dropna (Demo.frame 10))
         (select_dtypes_number (dropna (Demo.frame 10))) = inr df_numeric /\
       getitem_columns df_numeric
         (slice_to_last (select_dtypes_number (dropna (Demo.frame 10))))
         = inr X /\
       getitem_column df_numeric target = inr y /\
       column_names X
         = slice_to_last (select_dtypes_number (dropna (Demo.frame 10))) /\
       rows X
         = map (fun row =>
                  removelast (numeric_cells (columns (Demo.frame 10)) row))
               (rows (dropna (Demo.frame 10))) /\
       y = map (fun row =>
                  last (numeric_cells (columns (Demo.frame 10)) row) NA)
               (rows (dropna (Demo.frame 10))) /\
       forall g path r,
         Demo.read_csv path = inr (Demo.frame 10) ->
         Run.outcome (Demo.process_csv g path) = inr r ->
         exists X_train X_test y_train y_test model y_pred,
           train_test_split Demo.RandomState Demo.seeded Demo.permutation g
             X y (2 # 10) (Some 42%Z)
             = inr (X_train, X_test, y_train, y_test) /\
           fit Demo.lstsq X_train y_train = inr model /\
           predict model X_test = inr y_pred /\
           metrics.r2_score y_test y_pred = inr (r2_score r) /\
           metrics.mean_absolute_error y_test y_pred = inr (mae r) /\
           metrics.mean_squared_error y_test y_pred = inr (mse r)).
Proof.
  split; [vm_compute; lia|].
  apply (last_numeric_column_is_target Demo.read_csv Demo.RandomState
           Demo.seeded Demo.permutation Demo.lstsq (Demo.frame 10)).
  vm_compute; lia.
Defined.

Lemma pipeline_deterministic_witness :
  Demo.read_csv "ten.csv" = Demo.read_csv "copy.csv" /\
  Demo.process_csv 0%nat "ten.csv" = Demo.process_csv 1%nat "copy.csv" /\
  forall n,
    shuffle_split Demo.RandomState Demo.seeded Demo.permutation 0%nat n
      (2 # 10) (Some 42%Z)
    = shuffle_split Demo.RandomState Demo.seeded Demo.permutation 1%nat n
        (2 # 10) (Some 42%Z).
Proof.
  split; [reflexivity|].
  apply (pipeline_deterministic Demo.read_csv Demo.RandomState Demo.seeded
           Demo.permutation Demo.lstsq 0%nat 1%nat "ten.csv" "copy.csv").
  reflexivity.
Defined.

Lemma perfect_predictions_witness :
  check_array [Num 1; Num (5 # 2)] = inr [1%Q; 5 # 2] /\
  Forall2 Qeq [1%Q; 5 # 2] [1%Q; 10 # 4] /\
  1 <= length [1%Q; 5 # 2] /\
  (exists m,
     metrics.mean_absolute_error [Num 1; Num (5 # 2)] [1%Q; 10 # 4]
       = inr (Real m) /\ m == 0) /\
  (exists m,
     metrics.mean_squared_error [Num 1; Num (5 # 2)] [1%Q; 10 # 4]
       = inr (Real m) /\ m == 0) /\
  (2 <= length [1%Q; 5 # 2] ->
   metrics.r2_score [Num 1; Num (5 # 2)] [1%Q; 10 # 4] = inr (Real 1)) /\
  (length [1%Q; 5 # 2] = 1 ->
   metrics.r2_score [Num 1; Num (5 # 2)] [1%Q; 10 # 4] = inr NaN).
Proof.
  assert (H : Forall2 Qeq [1%Q; 5 # 2] [1%Q; 10 # 4]).
  { repeat constructor; reflexivity. }
  split; [reflexivity|].
  split; [exact H|].
  split; [simpl; lia|].
  apply (perfect_predictions [Num 1; Num (5 # 2)] [1%Q; 5 # 2] [1%Q; 10 # 4]).
  - reflexivity.
  - exact H.
  - simpl; lia.
Defined.

(** C7 as stated fails on one row: the prediction equals the actual value
    and [r2_score] is NaN, not 1. *)
Lemma r2_of_one_row_is_nan :
  check_array [Num 1] = inr [1%Q] /\
  Forall2 Qeq [1%Q] [1%Q] /\
  metrics.r2_score [Num 1] [1%Q] = inr NaN /\
  metrics.r2_score [Num 1] [1%Q] <> inr (Real 1).
Proof.
  split; [reflexivity|].
  split; [repeat constructor; reflexivity|].
  split; [reflexivity|discriminate].
Qed.

(** C8 as stated fails: a loader that runs out of memory and a solver that
    runs out of memory reach the caller as the same exception, although
    the runs stopped at different stages. *)
Lemma wrapped_message_hides_the_stage :
  Run.outcome (Demo.process_csv 0%nat "huge.csv")
    = inl (Exception "ML processing error: ") /\
  Run.outcome (Demo.process_csv_no_fit 0%nat "ten.csv")
    = inl (Exception "ML processing error: ") /\
  Run.trace (Demo.process_csv 0%nat "huge.csv") = [Loader] /\
  Run.trace (Demo.process_csv_no_fit 0%nat "ten.csv")
    = [Loader; Cleaner; Selector; Splitter; RegressionModel].
Proof. repeat split; vm_compute; reflexivity. Qed.

Lemma sizes_add_up_witness :
  exists r,
    Run.outcome (Demo.process_csv 0%nat "ten.csv") = inr r /\
    train_size (info r) + test_size (info r) = rows_after_cleaning (info r) /\
    rows_after_cleaning (info r) <= total_rows (info r).
Proof.
  eexists; split; [vm_compute; reflexivity|].
  apply (sizes_add_up Demo.read_csv Demo.RandomState Demo.seeded
           Demo.permutation Demo.lstsq demo_permutation_spec 0%nat "ten.csv").
  vm_compute; reflexivity.
Defined.

Lemma target_not_a_feature_witness :
  exists r,
    Demo.read_csv "ten.csv" = inr (Demo.frame 10) /\
    unique_names (Demo.frame 10) /\
    Run.outcome (Demo.process_csv 0%nat "ten.csv") = inr r /\
    ~ In (target_column (info r)) (feature_names (info r)) /\
    feature_columns (info r) = length (feature_names (info r)) /\
    1 <= feature_columns (info r).
Proof.
  eexists; split; [reflexivity|].
  split; [apply demo_frame_unique_names|].
  split; [vm_compute; reflexivity|].
  apply (target_not_a_feature Demo.read_csv Demo.RandomState Demo.seeded
           Demo.permutation Demo.lstsq 0%nat "ten.csv" (Demo.frame 10)).
  - reflexivity.
  - apply demo_frame_unique_names.
  - vm_compute; reflexivity.
Defined.

(** * Further properties *)

(** ** The rows of the split *)

Lemma nth_error_combine {A B} (a : list A) (b : list B) i x y :
  nth_error a i = Some x -> nth_error b i = Some y ->
  nth_error (combine a b) i = Some (x, y).
Proof.
  revert b i; induction a as [|a0 a IH]; intros [|b0 b] [|i] Ha Hb;
    simpl in *; try discriminate.
  - now injection Ha as ->; injection Hb as ->.
  - now apply IH.
Qed.

Lemma Forall2_combine_indexed {A B} (a : list A) (b : list B)
    (indices : list nat) (la : list A) (lb : list B) :
  Forall2 (fun i x => nth_error a i = Some x) indices la ->
  Forall2 (fun i y => nth_error b i = Some y) indices lb ->
  Forall2 (fun i p => nth_error (combine a b) i = Some p) indices
          (combine la lb).
Proof.
  intros Ha; revert lb; induction Ha as [|i x indices la Hx _ IH];
    intros lb Hb; inversion Hb; subst; simpl; constructor.
  - now apply nth_error_combine.
  - now apply IH.
Qed.

Lemma map_nth_seq {A} (L : list A) (d : A) :
  map (fun i => nth i L d) (seq 0 (length L)) = L.
Proof.
  induction L as [|a L IH]; simpl; [reflexivity|].
  f_equal; rewrite <- seq_shift, map_map; exact IH.
Qed.

Lemma reindex_permutation {A} (L : list A) (indices : list nat) (l : list A) :
  Forall2 (fun i x => nth_error L i = Some x) indices l ->
  Permutation indices (seq 0 (length L)) ->
  Permutation l L.
Proof.
  intros HF HP.
  destruct L as [|d L'] eqn:EL.
  - simpl in HP; apply Permutation_sym, Permutation_nil in HP; subst.
    inversion HF; constructor.
  - rewrite <- EL in *; clear EL L'.
    assert (El : l = map (fun i => nth i L d) indices).
    { clear HP; induction HF as [|i x indices l Hx _ IH]; simpl;
        [reflexivity|].
      f_equal; [|exact IH].
      symmetry; now apply nth_error_nth. }
    rewrite El.
    apply (Permutation_trans (Permutation_map _ HP)).
    now rewrite map_nth_seq.
Qed.

Section SplitterRows.

Variable RandomState : Type.
Variable seeded : Z -> RandomState.
Variable permutation : RandomState -> nat -> list nat.

Hypothesis permutation_spec :
  forall g n, Permutation (permutation g n) (seq 0 n).

(** X5. Whenever the split returns, the (row, target) pairs of TRAIN
    followed by those of TEST are a rearrangement of the pairs handed in:
    no row is lost or repeated, every row keeps its own target, and both
    parts keep the columns of the frame. *)
Theorem split_keeps_rows_paired g X y q rs X_train X_test y_train y_test :
  train_test_split RandomState seeded permutation g X y q rs
    = inr (X_train, X_test, y_train, y_test) ->
  Permutation (combine (rows X_train) y_train ++ combine (rows X_test) y_test)
              (combine (rows X) y) /\
  columns X_train = columns X /\ columns X_test = columns X.
Proof.
  unfold train_test_split.
  destruct (len X =? length y) eqn:Elen; cbn [negb]; [|discriminate].
  apply Nat.eqb_eq in Elen.
  destruct (shuffle_split RandomState seeded permutation g (len X) q rs)
    as [m|[tr te]] eqn:E; [discriminate|].
  cbn [ebind fst snd].
  destruct (safe_indexing (rows X) tr) as [m|Xtr] eqn:E1; [discriminate|].
  destruct (safe_indexing (rows X) te) as [m|Xte] eqn:E2; [discriminate|].
  destruct (safe_indexing y tr) as [m|ytr] eqn:E3; [discriminate|].
  destruct (safe_indexing y te) as [m|yte] eqn:E4; [discriminate|].
  intros H; injection H as <- <- <- <-; cbn [rows columns].
  split; [|split; reflexivity].
  apply safe_indexing_Forall2 in E1, E2, E3, E4.
  apply (reindex_permutation _ (tr ++ te)).
  - apply Forall2_app; now apply Forall2_combine_indexed.
  - replace (length (combine (rows X) y)) with (len X)
      by (rewrite length_combine; unfold len in *; lia).
    apply (shuffle_split_perm _ _ _ permutation_spec) in E.
    exact (Permutation_trans (Permutation_app_comm tr te) E).
Qed.

End SplitterRows.

(** ** Successful runs *)

Lemma fifth_bounds (n : nat) :
  10 <= n ->
  2 <= (n + 4) / 5 /\ (n + 4) / 5 < n /\
  n <= 5 * ((n + 4) / 5) /\ 5 * ((n + 4) / 5) < n + 5.
Proof.
  intros Hn.
  pose proof (Nat.div_mod_eq (n + 4) 5) as H1.
  pose proof (Nat.mod_upper_bound (n + 4) 5 ltac:(lia)) as H2.
  lia.
Qed.

Section PipelineRuns.

Variable read_csv : string -> string + DataFrame.
Variable RandomState : Type.
Variable seeded : Z -> RandomState.
Variable permutation : RandomState -> nat -> list nat.
Variable lstsq : list (list Q) -> list Q -> string + (list Q * Q).

Hypothesis permutation_spec :
  forall g n, Permutation (permutation g n) (seq 0 n).

Local Abbreviation body :=
  (process_csv_body read_csv RandomState seeded permutation lstsq).
Local Abbreviation run :=
  (process_csv read_csv RandomState seeded permutation lstsq).
Local Abbreviation split :=
  (train_test_split RandomState seeded permutation).

(** X1. A file that loads into a rectangular frame with at least 2
    numeric columns and at least 10 rows without a missing value is not
    stopped by either validation and is always split: the run enters the
    loader, the cleaner, the selector, the splitter and the regression
    model, in this order, and if it fails at all, the exception is a
    library's (from fitting, predicting or scoring), never one of the two
    validation errors. *)
Theorem validated_file_reaches_fit g path df :
  read_csv path = inr df ->
  rectangular df ->
  2 <= length (select_dtypes_number df) ->
  10 <= len (dropna df) ->
  (exists rest,
     Run.trace (run g path)
     = [Loader; Cleaner; Selector; Splitter; RegressionModel] ++ rest) /\
  (forall e, Run.outcome (body g path) = inl e ->
             exists msg, e = LibraryError msg).
Proof.
  intros Hread Hrect Hcols Hrows.
  rewrite <- select_dtypes_number_dropna in Hcols.
  split.
  - apply dropna_rectangular in Hrect.
    unfold process_csv; rewrite trace_try_except.
    unfold process_csv_body.
    run_norm; rewrite Hread; run_norm.
    set (nc := select_dtypes_number (dropna df)) in *.
    replace (length nc <? 2) with false by (symmetry; apply Nat.ltb_ge; lia).
    destruct (getitem_columns_total (dropna df) nc Hrect) as [dn Enum];
      [apply select_dtypes_number_incl|].
    run_norm; rewrite Enum; run_norm.
    destruct (getitem_last_total nc) as [target Elast]; [lia|].
    rewrite Elast; run_norm.
    pose proof (getitem_last_inv _ _ Elast) as Hnc.
    pose proof (getitem_columns_names _ _ _ Enum) as Hnames.
    pose proof (getitem_columns_rectangular _ _ _ Enum) as Hrect'.
    destruct (getitem_columns_total dn (slice_to_last nc) Hrect') as [X EX].
    { rewrite Hnames; intros nm Hnm; rewrite Hnc; apply in_or_app; now left. }
    rewrite EX; run_norm.
    destruct (getitem_column_total dn target Hrect') as [y Ey].
    { rewrite Hnames, Hnc; apply in_or_app; right; now left. }
    rewrite Ey; run_norm.
    assert (HlenX : len X = len (dropna df)).
    { apply getitem_columns_len in EX, Enum; congruence. }
    assert (Hleny : len X = length y).
    { apply getitem_column_len in Ey; apply getitem_columns_len in EX.
      congruence. }
    replace (len X <? 10) with false by (symmetry; apply Nat.ltb_ge; lia).
    destruct (train_test_split_fifth RandomState seeded permutation
                permutation_spec g X y Hleny)
      as (Xtr & Xte & ytr & yte & Esplit & _); [lia|].
    run_norm; rewrite Esplit; run_norm.
    eexists; reflexivity.
  - intros e He.
    destruct (body_failure read_csv RandomState seeded permutation lstsq
                g path e He)
      as [H|[(_ & df' & Hread' & H)|(_ & df' & Hread' & _ & H)]].
    + exact H.
    + rewrite Hread in Hread'; injection Hread' as <-; lia.
    + rewrite Hread in Hread'; injection Hread' as <-; lia.
Qed.

Lemma filter_length_all {A} (f : A -> bool) (l : list A) :
  length (filter f l) = length l <-> Forall (fun a => f a = true) l.
Proof.
  induction l as [|a l IH]; simpl; [split; constructor|].
  pose proof (filter_length_le f l) as Hle.
  destruct (f a) eqn:E; simpl; split; intros H.
  - constructor; [exact E|]; apply IH; lia.
  - inversion H; subst; f_equal; now apply IH.
  - lia.
  - inversion H; congruence.
Qed.

(** What a successful run computed its metrics on. *)
Lemma body_success_metrics g path r :
  Run.outcome (body g path) = inr r ->
  exists X y X_train X_test y_train y_test y_pred,
    10 <= len X /\
    split g X y (2 # 10) (Some 42%Z) = inr (X_train, X_test, y_train, y_test) /\
    metrics.r2_score y_test y_pred = inr (r2_score r) /\
    metrics.mean_absolute_error y_test y_pred = inr (mae r) /\
    metrics.mean_squared_error y_test y_pred = inr (mse r) /\
    rows_after_cleaning (info r) = len X /\
    train_size (info r) = len X_train /\
    test_size (info r) = len X_test.
Proof.
  unfold process_csv_body; intros H.
  run_norm_in H.
  destruct (read_csv path) as [m|df] eqn:Eread; [discriminate|].
  run_norm_in H.
  destruct (length (select_dtypes_number (dropna df)) <? 2) eqn:Ecols;
    [discriminate|].
  run_norm_in H.
  destruct (getitem_columns (dropna df) _) as [m|df_numeric] eqn:Enum;
    [discriminate|].
  run_norm_in H.
  destruct (getitem_last _) as [m|target] eqn:Elast; [discriminate|].
  run_norm_in H.
  destruct (getitem_columns df_numeric _) as [m|X] eqn:EX; [discriminate|].
  run_norm_in H.
  destruct (getitem_column df_numeric target) as [m|y] eqn:Ey; [discriminate|].
  run_norm_in H.
  destruct (len X <? 10) eqn:Erows; [discriminate|].
  run_norm_in H.
  destruct (split g X y (2 # 10) (Some 42%Z))
    as [m|[[[X_train X_test] y_train] y_test]] eqn:Esplit; [discriminate|].
  run_norm_in H.
  destruct (fit lstsq X_train y_train) as [m|model]; [discriminate|].
  run_norm_in H.
  destruct (predict model X_test) as [m|y_pred]; [discriminate|].
  run_norm_in H.
  destruct (metrics.r2_score y_test y_pred) as [m|r2] eqn:Er2;
    [discriminate|].
  run_norm_in H.
  destruct (metrics.mean_absolute_error y_test y_pred) as [m|mae_] eqn:Emae;
    [discriminate|].
  run_norm_in H.
  destruct (metrics.mean_squared_error y_test y_pred) as [m|mse_] eqn:Emse;
    [discriminate|].
  run_norm_in H.
  injection H as <-.
  apply Nat.ltb_ge in Erows.
  apply getitem_columns_len in EX, Enum.
  exists X, y, X_train, X_test, y_train, y_test, y_pred.
  cbn [r2_score mae mse info rows_after_cleaning train_size test_size].
  repeat split; (assumption || congruence).
Qed.

Lemma run_success g path r :
  Run.outcome (run g path) = inr r -> Run.outcome (body g path) = inr r.
Proof.
  unfold process_csv; rewrite outcome_try_except.
  destruct (Run.outcome (body g path)); [discriminate|auto].
Qed.

(** X2. The counters of a successful result record describe the file:
    [total_rows] is its number of rows, [rows_after_cleaning] the number
    of rows without a missing value in any column, numeric or not, and
    [feature_columns] one less than its number of numeric columns; no row
    was dropped exactly when no row of the file has a missing value. *)
Theorem report_counts_the_file g path df r :
  read_csv path = inr df ->
  Run.outcome (run g path) = inr r ->
  total_rows (info r) = length (rows df) /\
  rows_after_cleaning (info r) = length (filter (forallb notna) (rows df)) /\
  feature_columns (info r) + 1
    = length (filter (fun c => is_number (snd c)) (columns df)) /\
  (rows_after_cleaning (info r) = total_rows (info r)
   <-> Forall (fun row => forallb notna row = true) (rows df)).
Proof.
  intros Hread Hrun; apply run_success, body_success in Hrun
    as (df' & dn & t & X & y & Xtr & Xte & ytr & yte & Hread' & Hcols & _
        & _ & _ & _ & _ & _ & Hinfo).
  cbn zeta in *.
  rewrite Hread in Hread'; injection Hread' as <-.
  rewrite Hinfo.
  cbn [total_rows rows_after_cleaning feature_columns].
  unfold len, dropna; cbn [rows].
  split; [reflexivity|]; split; [reflexivity|]; split.
  - rewrite slice_to_last_length.
    unfold select_dtypes_number in *; cbn [dropna columns] in *.
    rewrite length_map in *; lia.
  - apply filter_length_all.
Qed.

(** X3. In every successful result record there are at least 10 cleaned
    rows, [test_size] is the least whole number that is at least a fifth
    of them, so at least 2, and it is smaller than [train_size]. *)
Theorem report_split_sizes g path r :
  Run.outcome (run g path) = inr r ->
  10 <= rows_after_cleaning (info r) /\
  rows_after_cleaning (info r) <= 5 * test_size (info r) /\
  5 * test_size (info r) < rows_after_cleaning (info r) + 5 /\
  2 <= test_size (info r) /\
  test_size (info r) < train_size (info r).
Proof.
  intros Hrun; apply run_success, body_success_metrics in Hrun
    as (X & y & Xtr & Xte & ytr & yte & yp & Hn & Esplit & _ & _ & _
        & -> & -> & ->).
  pose proof (train_test_split_inv RandomState seeded permutation
                g X y _ _ _ _ _ _ Esplit) as (Hlen & _).
  destruct (train_test_split_fifth RandomState seeded permutation
              permutation_spec g X y Hlen)
    as (Xtr' & Xte' & ytr' & yte' & E' & Hte & Htr & _); [lia|].
  rewrite Esplit in E'; injection E' as <- <- <- <-.
  rewrite Hte, Htr.
  destruct (fifth_bounds (len X) Hn) as (H1 & H2 & H3 & H4).
  lia.
Qed.

End PipelineRuns.

(** ** The entry point *)

Section EntryPointFacts.

Variable read_csv : string -> string + DataFrame.
Variable RandomState : Type.
Variable seeded : Z -> RandomState.
Variable permutation : RandomState -> nat -> list nat.
Variable lstsq : list (list Q) -> list Q -> string + (list Q * Q).

Local Abbreviation body :=
  (process_csv_body read_csv RandomState seeded permutation lstsq).
Local Abbreviation run :=
  (process_csv read_csv RandomState seeded permutation lstsq).
Local Abbreviation entry :=
  (main read_csv RandomState seeded permutation lstsq).

(** X9. Every invocation writes exactly one record and exits with status
    0 or 1.  The status is 0 exactly when there are two arguments and the
    pipeline succeeds, and the record on standard output is then the
    result.  A record goes to standard error exactly when there are two
    arguments and the pipeline raises, and it is the error record whose
    message is ["ML processing error: "] followed by the message of the
    exception raised.  With any other number of arguments the usage record
    goes to standard output, with status 1. *)
Theorem main_writes_one_record g argv :
  length (stdout (main read_csv RandomState seeded permutation lstsq g argv))
  + length (stderr (main read_csv RandomState seeded permutation lstsq g argv))
    = 1 /\
  (exit_status (entry g argv) = 0 \/ exit_status (entry g argv) = 1) /\
  (exit_status (entry g argv) = 0
   <-> exists prog path r,
         argv = [prog; path] /\ Run.outcome (run g path) = inr r /\
         stdout (entry g argv) = [results_to_json r]) /\
  (stderr (entry g argv) <> []
   <-> exists prog path e,
         argv = [prog; path] /\ Run.outcome (body g path) = inl e /\
         stderr (entry g argv)
           = [error_record ("ML processing error: " ++ str e)]) /\
  (length argv <> 2 -> entry g argv = mkOutput [error_record usage] [] 1).
Proof.
  unfold main.
  destruct argv as [|prog [|path [|extra argv]]].
  1, 2, 4: repeat split; simpl; try (now left) || (now right) || auto;
    try discriminate; try congruence;
    try (intros (p & f & x & H & _); discriminate).
  unfold process_csv; rewrite outcome_try_except.
  destruct (Run.outcome (body g path)) as [e|r] eqn:E;
    cbn [stdout stderr exit_status length Nat.add].
  - split; [reflexivity|]; split; [now right|]; split; [|split].
    + split; [discriminate|].
      intros (p & f & x & H & Hx & _); injection H as _ <-.
      unfold process_csv in Hx; rewrite outcome_try_except, E in Hx.
      discriminate.
    + split; [|discriminate].
      intros _; exists prog, path, e; repeat split; exact E.
    + simpl; congruence.
  - split; [reflexivity|]; split; [now left|]; split; [|split].
    + split; [|reflexivity].
      intros _; exists prog, path, r; repeat split.
      unfold process_csv; now rewrite outcome_try_except, E.
    + split; [congruence|].
      intros (p & f & x & H & Hx & _); injection H as _ <-.
      rewrite E in Hx; discriminate.
    + simpl; congruence.
Qed.

(** X10. What [main] writes for the three failures a user meets: a file
    that does not load, fewer than 2 numeric columns, and fewer than 10
    rows without a missing value.  Each time nothing goes to standard
    output, the status is 1, and standard error holds the one error
    record with the message of the exception after the prefix. *)
Theorem main_reports_failures g prog path :
  (forall msg,
     read_csv path = inl msg ->
     entry g [prog; path]
       = mkOutput [] [error_record ("ML processing error: " ++ msg)] 1) /\
  (forall df,
     read_csv path = inr df ->
     length (select_dtypes_number (dropna df)) < 2 ->
     main read_csv RandomState seeded permutation lstsq g [prog; path]
       = mkOutput []
           [error_record "ML processing error: Dataset must have at least 2 numeric columns for regression analysis"]
           1) /\
  (forall df,
     read_csv path = inr df ->
     rectangular df ->
     2 <= length (select_dtypes_number (dropna df)) ->
     len (dropna df) < 10 ->
     main read_csv RandomState seeded permutation lstsq g [prog; path]
       = mkOutput []
           [error_record "ML processing error: Dataset must have at least 10 samples after cleaning"]
           1).
Proof.
  split; [|split].
  - intros msg Hread; unfold main, process_csv, process_csv_body.
    now rewrite Hread.
  - intros df Hread Hcols; unfold main, process_csv.
    now rewrite (body_columns_check read_csv RandomState seeded permutation
                   lstsq g path df Hread Hcols).
  - intros df Hread Hrect Hcols Hrows; unfold main, process_csv.
    now rewrite (body_samples_check read_csv RandomState seeded permutation
                   lstsq g path df Hread Hrect Hcols Hrows).
Qed.

End EntryPointFacts.

(** ** Further runs on concrete files *)

Lemma validated_file_reaches_fit_witness :
  Demo.read_csv "ten.csv" = inr (Demo.frame 10) /\
  rectangular (Demo.frame 10) /\
  2 <= length (select_dtypes_number (Demo.frame 10)) /\
  10 <= len (dropna (Demo.frame 10)) /\
  (exists rest,
     Run.trace (Demo.process_csv_no_fit 0%nat "ten.csv")
     = [Loader; Cleaner; Selector; Splitter; RegressionModel] ++ rest) /\
  (forall e,
     Run.outcome
       (process_csv_body Demo.read_csv Demo.RandomState Demo.seeded
          Demo.permutation Demo.lstsq_fails 0%nat "ten.csv") = inl e ->
     exists msg, e = LibraryError msg).
Proof.
  split; [reflexivity|].
  split; [apply demo_frame_rectangular|].
  split; [vm_compute; lia|].
  split; [vm_compute; lia|].
  apply (validated_file_reaches_fit Demo.read_csv Demo.RandomState
           Demo.seeded Demo.permutation Demo.lstsq_fails
           demo_permutation_spec 0%nat "ten.csv" (Demo.frame 10)).
  - reflexivity.
  - apply demo_frame_rectangular.
  - vm_compute; lia.
  - vm_compute; lia.
Defined.

Lemma report_counts_the_file_witness :
  exists r,
    Demo.read_csv "ten.csv" = inr (Demo.frame 10) /\
    Run.outcome (Demo.process_csv 0%nat "ten.csv") = inr r /\
    total_rows (info r) = length (rows (Demo.frame 10)) /\
    rows_after_cleaning (info r)
      = length (filter (forallb notna) (rows (Demo.frame 10))) /\
    feature_columns (info r) + 1
      = length (filter (fun c => is_number (snd c))
                       (columns (Demo.frame 10))) /\
    (rows_after_cleaning (info r) = total_rows (info r)
     <-> Forall (fun row => forallb notna row = true)
                (rows (Demo.frame 10))).
Proof.
  eexists; split; [reflexivity|].
  split; [vm_compute; reflexivity|].
  apply (report_counts_the_file Demo.read_csv Demo.RandomState Demo.seeded
           Demo.permutation Demo.lstsq 0%nat "ten.csv" (Demo.frame 10)).
  - reflexivity.
  - vm_compute; reflexivity.
Defined.

Lemma report_split_sizes_witness :
  exists r,
    Run.outcome (Demo.process_csv 0%nat "eleven.csv") = inr r /\
    10 <= rows_after_cleaning (info r) /\
    rows_after_cleaning (info r) <= 5 * test_size (info r) /\
    5 * test_size (info r) < rows_after_cleaning (info r) + 5 /\
    2 <= test_size (info r) /\
    test_size (info r) < train_size (info r).
Proof.
  eexists; split; [vm_compute; reflexivity|].
  apply (report_split_sizes Demo.read_csv Demo.RandomState Demo.seeded
           Demo.permutation Demo.lstsq demo_permutation_spec 0%nat
           "eleven.csv").
  vm_compute; reflexivity.
Defined.

Lemma split_keeps_rows_paired_witness :
  exists X_train X_test y_train y_test,
    train_test_split Demo.RandomState Demo.seeded Demo.permutation 0%nat
      Demo.X Demo.y (2 # 10) (Some 42%Z)
      = inr (X_train, X_test, y_train, y_test) /\
    Permutation
      (combine (rows X_train) y_train ++ combine (rows X_test) y_test)
      (combine (rows Demo.X) Demo.y) /\
    columns X_train = columns Demo.X /\ columns X_test = columns Demo.X.
Proof.
  eexists _, _, _, _; split; [vm_compute; reflexivity|].
  apply (split_keeps_rows_paired Demo.RandomState Demo.seeded
           Demo.permutation demo_permutation_spec 0%nat Demo.X Demo.y
           (2 # 10) (Some 42%Z)).
  vm_compute; reflexivity.
Defined.
